(** * Order lifecycle of the perfume-store API (main.py, schemas.py)

    A shallow embedding of the three order endpoints of [main.py]
    ([create_order], [verify_payment], [update_order_status]) together with
    the [Order] schema of [schemas.py], and the properties of the payment
    lifecycle proved about them.

    Conventions.
    - A Python [str] is represented by its UTF-8 encoding, a [string] of
      bytes; [bytes(s, 'utf-8')] is then the list of these bytes and [==]
      on [str] is equality of the encodings.
    - A Python [float] is an IEEE-754 binary64 value, a [spec_float] with
      the operations of [SpecFloat] at precision 53 and [emax] 1024.
    - The module constants [RAZORPAY_KEY_ID] and [RAZORPAY_KEY_SECRET] are
      read once from the environment; they are passed as a [Config].
    - [db] is the connected pymongo database the [database] module
      exports; [db["order"]] is a list of documents in natural order and
      [update_one] has pymongo's meaning.  Failures of the store itself are
      outside the model.
    - The handlers run in a small monad over the [World]: the content of
      the ["order"] collection and the log of outbound gateway calls.  An
      exception leaves the world as it was when it was raised, as in
      Python. *)

From Stdlib Require Import ZArith NArith Lia List Bool String Ascii.
From Stdlib Require Import Strings.Byte DecimalString.
From Stdlib Require Import Floats.SpecFloat.
Import ListNotations.

Local Open Scope string_scope.
Local Open Scope list_scope.

(** ** Bytes and hexadecimal rendering *)

Definition byte_of_N (n : N) : byte :=
  match Byte.of_N (n mod 256) with
  | Some b => b
  | None => x00
  end.

(** [bytes(s, 'utf-8')] on the representation of [s]. *)
Definition bytes (s : string) : list byte := list_byte_of_string s.

Definition hex_digits : list ascii :=
  list_ascii_of_string "0123456789abcdef".

Definition hex_digit (n : N) : ascii :=
  nth (N.to_nat (n mod 16)) hex_digits "0"%char.

Definition hex_of_byte (b : byte) : string :=
  let n := Byte.to_N b in
  String (hex_digit (n / 16)) (String (hex_digit n) EmptyString).

(** [bytes.hex()]: two lowercase hexadecimal digits per byte. *)
Fixpoint hex (bs : list byte) : string :=
  match bs with
  | [] => EmptyString
  | b :: bs' => hex_of_byte b ++ hex bs'
  end.

Definition is_lower_hex (c : ascii) : bool :=
  existsb (Ascii.eqb c) hex_digits.

(** ** SHA-256 (hashlib.sha256), FIPS 180-4, on 32-bit words in [N] *)

Module SHA256.

Local Open Scope N_scope.

Definition mask32 : N := 0xFFFFFFFF.
Definition w32 (x : N) : N := N.land x mask32.
Definition add32 (x y : N) : N := w32 (x + y).
Definition not32 (x : N) : N := N.lxor x mask32.
Definition rotr (n x : N) : N :=
  N.lor (N.shiftr x n) (w32 (N.shiftl x (32 - n))).

Definition Ch (x y z : N) : N := N.lxor (N.land x y) (N.land (not32 x) z).
Definition Maj (x y z : N) : N :=
  N.lxor (N.lxor (N.land x y) (N.land x z)) (N.land y z).
Definition Sigma0 (x : N) : N := N.lxor (N.lxor (rotr 2 x) (rotr 13 x)) (rotr 22 x).
Definition Sigma1 (x : N) : N := N.lxor (N.lxor (rotr 6 x) (rotr 11 x)) (rotr 25 x).
Definition sigma0 (x : N) : N := N.lxor (N.lxor (rotr 7 x) (rotr 18 x)) (N.shiftr x 3).
Definition sigma1 (x : N) : N := N.lxor (N.lxor (rotr 17 x) (rotr 19 x)) (N.shiftr x 10).

(** The constants are given by their definition: the first 32 bits of the
    fractional parts of the cube roots (for [K]) and of the square roots
    (for [H0]) of the first primes. *)
Definition is_prime (n : N) : bool :=
  (1 <? n) &&
  forallb (fun d => negb (n mod d =? 0))
          (map N.of_nat (seq 2 (N.to_nat n - 2))).

(** The first 64 primes, 2 to 311. *)
Definition primes : list N := filter is_prime (map N.of_nat (seq 2 310)).

(** The integer cube root of [x], one bit at a time from bit [i] down. *)
Fixpoint cbrt_bits (i : nat) (x r : N) : N :=
  match i with
  | O => r
  | S i' =>
      let r' := r + N.shiftl 1 (N.of_nat i') in
      cbrt_bits i' x (if r' * r' * r' <=? x then r' else r)
  end.

Definition frac_cbrt32 (p : N) : N := w32 (cbrt_bits 36 (N.shiftl p 96) 0).
Definition frac_sqrt32 (p : N) : N := w32 (N.sqrt (N.shiftl p 64)).

Definition K : list N := Eval vm_compute in map frac_cbrt32 primes.

(** The eight working variables, also the chaining value. *)
Record state := mkState { sa : N; sb : N; sc : N; sd : N;
                          se : N; sf : N; sg : N; sh : N }.

Definition state_of_list (l : list N) : state :=
  mkState (nth 0 l 0) (nth 1 l 0) (nth 2 l 0) (nth 3 l 0)
          (nth 4 l 0) (nth 5 l 0) (nth 6 l 0) (nth 7 l 0).

Definition H0 : state :=
  Eval vm_compute in state_of_list (map frac_sqrt32 (firstn 8 primes)).

(** Message schedule, kept most recent word first. *)
Fixpoint extend (n : nat) (r : list N) : list N :=
  match n with
  | O => r
  | S n' =>
      let w := add32 (add32 (sigma1 (nth 1 r 0)) (nth 6 r 0))
                     (add32 (sigma0 (nth 14 r 0)) (nth 15 r 0)) in
      extend n' (w :: r)
  end.

Definition schedule (block : list N) : list N :=
  rev (extend 48 (rev block)).

Definition round (s : state) (kw : N * N) : state :=
  let '(k, w) := kw in
  let t1 := add32 (add32 (add32 (sh s) (Sigma1 (se s)))
                         (add32 (Ch (se s) (sf s) (sg s)) k)) w in
  let t2 := add32 (Sigma0 (sa s)) (Maj (sa s) (sb s) (sc s)) in
  mkState (add32 t1 t2) (sa s) (sb s) (sc s)
          (add32 (sd s) t1) (se s) (sf s) (sg s).

Definition compress (h : state) (block : list N) : state :=
  let s := fold_left round (combine K (schedule block)) h in
  mkState (add32 (sa h) (sa s)) (add32 (sb h) (sb s))
          (add32 (sc h) (sc s)) (add32 (sd h) (sd s))
          (add32 (se h) (se s)) (add32 (sf h) (sf s))
          (add32 (sg h) (sg s)) (add32 (sh h) (sh s)).

(** Big-endian bytes of a number, [n] bytes wide. *)
Fixpoint be_bytes (n : nat) (x : N) : list byte :=
  match n with
  | O => []
  | S n' => byte_of_N (N.shiftr x (8 * N.of_nat n')) :: be_bytes n' x
  end.

Definition be_word (b0 b1 b2 b3 : byte) : N :=
  N.lor (N.lor (N.shiftl (Byte.to_N b0) 24) (N.shiftl (Byte.to_N b1) 16))
        (N.lor (N.shiftl (Byte.to_N b2) 8) (Byte.to_N b3)).

Fixpoint words (bs : list byte) : list N :=
  match bs with
  | b0 :: b1 :: b2 :: b3 :: bs' => be_word b0 b1 b2 b3 :: words bs'
  | _ => []
  end.

(** Padding: a 1 bit, zeros up to 56 mod 64, the bit length on 8 bytes. *)
Definition pad (msg : list byte) : list byte :=
  let len := N.of_nat (List.length msg) in
  let zeros := N.to_nat ((119 - len mod 64) mod 64) in
  msg ++ x80 :: repeat x00 zeros ++ be_bytes 8 (8 * len).

(** Absorb the padded message sixteen words at a time. *)
Fixpoint absorb (fuel : nat) (h : state) (ws : list N) : state :=
  match fuel, ws with
  | S fuel', _ :: _ => absorb fuel' (compress h (firstn 16 ws)) (skipn 16 ws)
  | _, _ => h
  end.

Definition digest_of_state (s : state) : list byte :=
  be_bytes 4 (sa s) ++ be_bytes 4 (sb s) ++ be_bytes 4 (sc s) ++
  be_bytes 4 (sd s) ++ be_bytes 4 (se s) ++ be_bytes 4 (sf s) ++
  be_bytes 4 (sg s) ++ be_bytes 4 (sh s).

Definition sha256 (msg : list byte) : list byte :=
  let ws := words (pad msg) in
  digest_of_state (absorb (List.length ws) H0 ws).

Definition digest_size : nat := 32.
Definition block_size : nat := 64.

End SHA256.

(** ** hmac.new(key, msg, digestmod=hashlib.sha256) and .hexdigest() *)

Module hmac.

(** The two running sha256 objects of an HMAC object, each represented by
    the bytes fed to it so far. *)
Record HMAC := mkHMAC { inner : list byte; outer : list byte }.

(** [key.translate(trans)], the table xoring every byte with [x]. *)
Definition translate (x : N) (key : list byte) : list byte :=
  map (fun b => byte_of_N (N.lxor (Byte.to_N b) x)) key.

(** [key.ljust(n, b'\0')] *)
Definition ljust (key : list byte) (n : nat) : list byte :=
  key ++ repeat x00 (n - List.length key).

Definition new (key msg : list byte) : HMAC :=
  let key := if (SHA256.block_size <? List.length key)%nat
             then SHA256.sha256 key else key in
  let key := ljust key SHA256.block_size in
  mkHMAC (translate 0x36 key ++ msg) (translate 0x5C key).

Definition digest (h : HMAC) : list byte :=
  SHA256.sha256 (outer h ++ SHA256.sha256 (inner h)).

Definition hexdigest (h : HMAC) : string := hex (digest h).

End hmac.

(** HMAC as RFC 2104 words it, for SHA-256: [H(K xor opad, H(K xor ipad, text))]
    with [K] hashed when longer than a block and then zero-padded to the
    block size, [ipad] the byte 0x36 and [opad] the byte 0x5C, each repeated
    block-size times. *)
Module RFC2104.

Definition xor_byte (a b : byte) : byte :=
  byte_of_N (N.lxor (Byte.to_N a) (Byte.to_N b)).

Fixpoint xor_bytes (xs ys : list byte) : list byte :=
  match xs, ys with
  | x :: xs', y :: ys' => xor_byte x y :: xor_bytes xs' ys'
  | _, _ => []
  end.

Definition B : nat := 64.
Definition ipad : list byte := repeat x36 B.
Definition opad : list byte := repeat x5c B.

Definition block_key (K : list byte) : list byte :=
  let K' := if (B <? List.length K)%nat then SHA256.sha256 K else K in
  K' ++ repeat x00 (B - List.length K').

Definition HMAC_SHA256 (K text : list byte) : list byte :=
  SHA256.sha256 (xor_bytes (block_key K) opad ++
                 SHA256.sha256 (xor_bytes (block_key K) ipad ++ text)).

End RFC2104.

(** ** Python floats: IEEE-754 binary64 *)

Definition float : Type := spec_float.
Definition prec : Z := 53.
Definition emax : Z := 1024.

(** [float(n)] for an integer [n]. *)
Definition float_of_Z (n : Z) : float := binary_normalize prec emax n 0 false.

(** [x * y] on floats. *)
Definition fmul (x y : float) : float := SFmul prec emax x y.

(** The float a decimal literal [n/d] denotes (the JSON parser rounds
    correctly): for [n] and [d] below 2^53 it is the correctly rounded
    quotient of two exact floats. *)
Definition float_of_decimal (n : Z) (d : positive) : float :=
  SFdiv prec emax (float_of_Z n) (float_of_Z (Zpos d)).

(** [x >= 0.0], the comparison of pydantic's [ge=0]; false on NaN. *)
Definition ge0 (x : float) : bool := SFleb (S754_zero false) x.

(** [x < 0.0] *)
Definition lt0 (x : float) : bool := SFltb x (S754_zero false).

(** [math.isfinite(x)] *)
Definition isfinite (x : float) : bool :=
  match x with
  | S754_zero _ | S754_finite _ _ _ => true
  | S754_infinity _ | S754_nan => false
  end.

(** ** Exceptions *)

Inductive exn : Type :=
| HTTPException (status_code : Z) (detail : string)
| RequestValidationError
| ValueError (msg : string)
| OverflowError (msg : string)
| RequestException (msg : string)
| JSONDecodeError (msg : string)
| InvalidId (msg : string).

Definition str_of_Z (z : Z) : string := NilZero.string_of_int (Z.to_int z).

(** [str(e)].  Starlette's [HTTPException.__str__] renders
    ["{status_code}: {detail}"]; the built-in exceptions render their
    message.  [RequestValidationError] is raised by the framework outside
    the handlers and never rendered by them; its detail is not modelled. *)
Definition str (e : exn) : string :=
  match e with
  | HTTPException c d => str_of_Z c ++ ": " ++ d
  | RequestValidationError => "request validation error"
  | ValueError m | OverflowError m
  | RequestException m | JSONDecodeError m | InvalidId m => m
  end.

(** [int(x)]: truncation toward zero; raises on NaN and on the infinities. *)
Definition int (x : float) : exn + Z :=
  match x with
  | S754_nan => inl (ValueError "cannot convert float NaN to integer")
  | S754_infinity _ =>
      inl (OverflowError "cannot convert float infinity to integer")
  | S754_zero _ => inr 0%Z
  | S754_finite s m e => inr (cond_Zopp s (Z.shiftl (Zpos m) e))
  end.

(** [round(x)] as the specification uses it: the nearest integer, ties to
    the even one (Python's [round] on a float); raises where [int] does. *)
Definition round_nearest (x : float) : exn + Z :=
  match x with
  | S754_nan => inl (ValueError "cannot convert float NaN to integer")
  | S754_infinity _ =>
      inl (OverflowError "cannot convert float infinity to integer")
  | S754_zero _ => inr 0%Z
  | S754_finite s m e =>
      let q := Z.shiftl (Zpos m) e in
      let d := Z.shiftl 1 (- e) in
      let r := (Zpos m - q * d)%Z in
      let up := match (2 * r ?= d)%Z with
                | Lt => false
                | Gt => true
                | Eq => Z.odd q
                end in
      inr (cond_Zopp s (if (0 <=? e)%Z then q else if up then q + 1 else q)%Z)
  end.

(** ** schemas.py *)

(** [datetime], as microseconds since the epoch. *)
Definition datetime : Type := Z.

Module OrderItem.
Record t := mk {
  product_id : string;
  title : string;
  size_ml : Z;
  price : float;
  quantity : Z
}.

(** [price: ge=0] and [quantity: ge=1] *)
Definition validate (i : t) : bool := ge0 (price i) && (1 <=? quantity i)%Z.
End OrderItem.

Module Order.
Record t := mk {
  customer_name : string;
  customer_email : string;
  customer_phone : string;
  shipping_address : string;
  items : list OrderItem.t;
  subtotal : float;
  shipping_fee : float;
  total_amount : float;
  currency : string;
  status : string;
  razorpay_order_id : option string;
  razorpay_payment_id : option string;
  razorpay_signature : option string;
  created_at : option datetime;
  updated_at : option datetime
}.

Definition currency_literals : list string := ["INR"].
Definition status_literals : list string :=
  ["pending"; "paid"; "processing"; "shipped"; "delivered"; "cancelled"].

(** The constraints of the model on a payload whose members have the right
    JSON types and whose defaults are filled in: [ge=0] on the three
    amounts, the two [Literal] members, and every item. *)
Definition validate (o : t) : bool :=
  forallb OrderItem.validate (items o) &&
  ge0 (subtotal o) && ge0 (shipping_fee o) && ge0 (total_amount o) &&
  existsb (String.eqb (currency o)) currency_literals &&
  existsb (String.eqb (status o)) status_literals.

(** [{"$set": {"status": s}}] on a stored order. *)
Definition set_status (s : string) (o : t) : t :=
  mk (customer_name o) (customer_email o) (customer_phone o)
     (shipping_address o) (items o) (subtotal o) (shipping_fee o)
     (total_amount o) (currency o) s (razorpay_order_id o)
     (razorpay_payment_id o) (razorpay_signature o) (created_at o)
     (updated_at o).

(** [order.razorpay_order_id = v] *)
Definition set_razorpay_order_id (v : option string) (o : t) : t :=
  mk (customer_name o) (customer_email o) (customer_phone o)
     (shipping_address o) (items o) (subtotal o) (shipping_fee o)
     (total_amount o) (currency o) (status o) v
     (razorpay_payment_id o) (razorpay_signature o) (created_at o)
     (updated_at o).
End Order.

(** ** The request bodies of main.py *)

Module CreateOrderPayload.
Record t := mk { order : Order.t }.
Definition validate (p : t) : bool := Order.validate (order p).
End CreateOrderPayload.

Module PaymentVerification.
Record t := mk {
  razorpay_order_id : string;
  razorpay_payment_id : string;
  razorpay_signature : string
}.
End PaymentVerification.

Module UpdateOrderStatus.
Record t := mk { status : string }.
End UpdateOrderStatus.

(** Handlers return JSON objects with string or integer members. *)
Inductive json : Type :=
| JNull
| JStr (s : string)
| JInt (z : Z).

Definition dict : Type := list (string * json).

Definition json_of_option (v : option string) : json :=
  match v with
  | Some s => JStr s
  | None => JNull
  end.

(** ** The payment gateway, reached through requests.post *)

Record GatewayRequest := mkGatewayRequest {
  url : string;
  auth : string * string;
  amount : Z;
  req_currency : string;
  receipt : string;
  payment_capture : Z;
  timeout : Z
}.

(** What the handler reads of a response: [r.status_code], [r.text] and
    [r.json().get("id")]; the last is an exception when the body is not a
    JSON object, and [None] when the object has no ["id"]. *)
Record Response := mkResponse {
  status_code : Z;
  text : string;
  json_id : exn + option string
}.

(** The gateway is the environment: any function from the request to a
    response or to the exception [requests.post] raises (timeout,
    connection failure). *)
Definition Gateway : Type := GatewayRequest -> exn + Response.

(** ** The document store *)

(** [bson.ObjectId], by its bytes: an identifier of twelve bytes is the
    number they spell, below 2^96.  ([ObjectId(s)] also lets through byte
    strings shorter than twelve; those are numbered from 2^96 up, see
    [oid_of_bytes], so that none equals a twelve-byte identifier.) *)
Definition ObjectId_t : Type := N.

Record Document := mkDocument { _id : ObjectId_t; data : Order.t }.

(** The world a handler runs in: [db["order"]] in natural (insertion)
    order, the next identifier the store hands out, and the outbound
    gateway calls made so far. *)
Record World := mkWorld {
  db_order : list Document;
  next_oid : N;
  outbound : list GatewayRequest
}.

(** ** The handler monad: state, and exceptions that keep the state *)

Definition M (A : Type) : Type := World -> (exn + A) * World.

Definition ret {A} (a : A) : M A := fun w => (inr a, w).

Definition raise {A} (e : exn) : M A := fun w => (inl e, w).

Definition bind {A B} (m : M A) (k : A -> M B) : M B :=
  fun w =>
    match m w with
    | (inr a, w') => k a w'
    | (inl e, w') => (inl e, w')
    end.

(** [try: m  except Exception as e: h e] *)
Definition try_except {A} (m : M A) (h : exn -> M A) : M A :=
  fun w =>
    match m w with
    | (inr a, w') => (inr a, w')
    | (inl e, w') => h e w'
    end.

(** A computation that raises or returns without touching the world. *)
Definition lift {A} (r : exn + A) : M A := fun w => (r, w).

Notation "x <- m ;; k" := (bind m (fun x => k))
  (at level 61, m at next level, right associativity).

(** [str(ObjectId)]: the twelve bytes in lowercase hexadecimal. *)
Definition str_ObjectId (o : ObjectId_t) : string := hex (SHA256.be_bytes 12 o).

Definition hex_value (c : ascii) : option N :=
  let n := N_of_ascii c in
  if ((48 <=? n) && (n <=? 57))%N then Some (n - 48)%N
  else if ((97 <=? n) && (n <=? 102))%N then Some (n - 87)%N
  else if ((65 <=? n) && (n <=? 70))%N then Some (n - 55)%N
  else None.

(** ASCII whitespace, as [bytes.fromhex] skips it. *)
Definition is_space (c : ascii) : bool :=
  let n := N_of_ascii c in
  ((n =? 32) || ((9 <=? n) && (n <=? 13)))%N.

(** [bytes.fromhex(s)]: two adjacent hexadecimal digits per byte, ASCII
    whitespace before a pair being skipped; [None] where it raises
    [ValueError]. *)
Fixpoint fromhex (s : string) : option (list byte) :=
  match s with
  | EmptyString => Some []
  | String c s' =>
      if is_space c then fromhex s'
      else
        match hex_value c, s' with
        | Some hi, String c2 s'' =>
            match hex_value c2 with
            | Some lo =>
                option_map (cons (byte_of_N (16 * hi + lo))) (fromhex s'')
            | None => None
            end
        | _, _ => None
        end
  end.

(** The number standing for the bytes of an identifier: their big-endian
    value when there are twelve, and otherwise a number from 2^96 up that
    tells the length and the value. *)
Definition oid_of_bytes (bs : list byte) : ObjectId_t :=
  let v := fold_left (fun a b => 256 * a + Byte.to_N b)%N bs 0%N in
  if (List.length bs =? 12)%nat then v
  else (2 ^ 96 * (1 + N.of_nat (List.length bs)) + v)%N.

Definition squote : ascii := "'"%char.
Definition dquote : ascii := "034"%char.
Definition backslash : ascii := "092"%char.

Definition is_ascii (s : string) : bool :=
  forallb (fun c => (N_of_ascii c <? 128)%N) (list_ascii_of_string s).

(** [repr(ch)] inside the quotes [q]. *)
Definition repr_char (q c : ascii) : string :=
  let n := N_of_ascii c in
  if Ascii.eqb c q || Ascii.eqb c backslash then String backslash (String c "")
  else if (n =? 9)%N then String backslash "t"
  else if (n =? 10)%N then String backslash "n"
  else if (n =? 13)%N then String backslash "r"
  else if ((n <? 32) || (n =? 127))%N
       then String backslash (String "x" (hex_of_byte (byte_of_N n)))
  else String c "".

(** [repr(s)] of a [str]: single quotes, or double quotes when [s] holds a
    single quote and no double quote; the quote, the backslash and the
    control characters escaped.  Exact on ASCII strings; the bytes of other
    characters are kept, which is Python's rendering of the printable
    ones. *)
Definition repr (s : string) : string :=
  let cs := list_ascii_of_string s in
  let q := if existsb (Ascii.eqb squote) cs && negb (existsb (Ascii.eqb dquote) cs)
           then dquote else squote in
  String q (String.concat "" (map (repr_char q) cs) ++ String q "").

(** [ObjectId(s)] for a [str]: a string of length 24 that [bytes.fromhex]
    accepts gives the identifier with these bytes; anything else raises
    [InvalidId], whose message renders the string with [%r]. *)
Definition ObjectId (s : string) : exn + ObjectId_t :=
  let msg := (repr s ++ " is not a valid ObjectId, it must be a 12-byte input or a 24-character hex string")%string in
  if (String.length s =? 24)%nat then
    match fromhex s with
    | Some bs => inr (oid_of_bytes bs)
    | None => inl (InvalidId msg)
    end
  else inl (InvalidId msg).

(** The two filters the handlers pass to [update_one]. *)
Inductive Filter : Type :=
| by_razorpay_order_id (v : string)
| by_id (o : ObjectId_t).

Definition option_string_eqb (a : option string) (b : string) : bool :=
  match a with
  | Some s => String.eqb s b
  | None => false
  end.

Definition matches (f : Filter) (d : Document) : bool :=
  match f with
  | by_razorpay_order_id v => option_string_eqb (Order.razorpay_order_id (data d)) v
  | by_id o => N.eqb (_id d) o
  end.

(** [collection.find_one(filter)]: the first match in natural order. *)
Definition find_one (f : Filter) (docs : list Document) : option Document :=
  find (matches f) docs.

(** pymongo's [collection.update_one(filter, {"$set": {"status": s}})]:
    the first document matching the filter gets the new status; with no
    match nothing changes and the call still returns. *)
Fixpoint update_one_docs (f : Filter) (s : string) (docs : list Document)
  : list Document :=
  match docs with
  | [] => []
  | d :: docs' =>
      if matches f d
      then mkDocument (_id d) (Order.set_status s (data d)) :: docs'
      else d :: update_one_docs f s docs'
  end.

Definition update_one (f : Filter) (s : string) : M unit :=
  fun w => (inr tt,
            mkWorld (update_one_docs f s (db_order w)) (next_oid w) (outbound w)).

(** Modelled from the spec: [database.create_document] is not among the
    sources.  The specification describes the store as a key-document store
    with a stable generated identifier per inserted record, [Insert(collection,
    record) -> id], the order being persisted as it is and the generated
    identifier being mapped to a string for the caller.  Here the collection
    is ["order"]. *)
Definition create_document (order : Order.t) : M string :=
  fun w =>
    let oid := next_oid w in
    (inr (str_ObjectId oid),
     mkWorld (db_order w ++ [mkDocument oid order]) (N.succ oid) (outbound w)).

(** [requests.post(url, auth=..., json=..., timeout=...)]: the call is
    logged and the gateway answers. *)
Definition requests_post (gateway : Gateway) (req : GatewayRequest) : M Response :=
  fun w =>
    (gateway req, mkWorld (db_order w) (next_oid w) (outbound w ++ [req])).

(** ** main.py *)

Record Config := mkConfig {
  RAZORPAY_KEY_ID : string;
  RAZORPAY_KEY_SECRET : string
}.

(** [not s] on a [str]: true on the empty string only. *)
Definition not_ (s : string) : bool :=
  match s with
  | EmptyString => true
  | String _ _ => false
  end.

(** The call [create_order] makes: the URL, [auth], the members of the
    [json] body and [timeout].  [urandom4] is the value of [os.urandom(4)]. *)
Definition gateway_request (cfg : Config) (urandom4 : list byte)
    (order : Order.t) (amount_paise : Z) : GatewayRequest :=
  mkGatewayRequest "https://api.razorpay.com/v1/orders"
    (RAZORPAY_KEY_ID cfg, RAZORPAY_KEY_SECRET cfg)
    amount_paise (Order.currency order) ("rcpt_" ++ hex urandom4) 1 15.

(** [POST /api/orders] *)
Definition create_order (cfg : Config) (gateway : Gateway)
    (urandom4 : list byte) (payload : CreateOrderPayload.t) : M dict :=
  let order := CreateOrderPayload.order payload in
  if not_ (RAZORPAY_KEY_ID cfg) || not_ (RAZORPAY_KEY_SECRET cfg) then
    try_except
      (_id <- create_document order ;;
       ret [("order_id", JStr _id); ("razorpay", JStr "not_configured")])
      (fun e => raise (HTTPException 500 (str e)))
  else
    try_except
      (amount_paise <-
         lift (int (fmul (Order.total_amount order) (float_of_Z 100))) ;;
       r <- requests_post gateway
              (gateway_request cfg urandom4 order amount_paise) ;;
       if (300 <=? status_code r)%Z then
         raise (HTTPException 502 (text r))
       else
         data_id <- lift (json_id r) ;;
         let order := Order.set_razorpay_order_id data_id order in
         _id <- create_document order ;;
         ret [("order_id", JStr _id);
              ("razorpay_order_id", json_of_option (Order.razorpay_order_id order));
              ("amount", JInt amount_paise)])
      (fun e => raise (HTTPException 500 (str e))).

(** The signature [verify_payment] computes from the secret and the body. *)
Definition generated_signature (secret order_id payment_id : string) : string :=
  hmac.hexdigest
    (hmac.new (bytes secret) (bytes (order_id ++ "|" ++ payment_id))).

(** [POST /api/orders/verify] *)
Definition verify_payment (cfg : Config) (body : PaymentVerification.t)
  : M dict :=
  if not_ (RAZORPAY_KEY_SECRET cfg) then
    ret [("status", JStr "skipped"); ("reason", JStr "Razorpay not configured")]
  else
    try_except
      (let generated_signature :=
         generated_signature (RAZORPAY_KEY_SECRET cfg)
           (PaymentVerification.razorpay_order_id body)
           (PaymentVerification.razorpay_payment_id body) in
       if String.eqb generated_signature
            (PaymentVerification.razorpay_signature body)
       then
         _ <- update_one
                (by_razorpay_order_id (PaymentVerification.razorpay_order_id body))
                "paid" ;;
         ret [("status", JStr "success")]
       else raise (HTTPException 400 "Invalid signature"))
      (fun e => raise (HTTPException 500 (str e))).

(** [PATCH /api/orders/{order_id}/status] *)
Definition update_order_status (order_id : string)
    (body : UpdateOrderStatus.t) : M dict :=
  try_except
    (oid <- lift (ObjectId order_id) ;;
     _ <- update_one (by_id oid) (UpdateOrderStatus.status body) ;;
     ret [("status", JStr "updated")])
    (fun e => raise (HTTPException 500 (str e))).

(** ** The HTTP boundary *)

(** A float that fails [ge=0] and has no JSON rendering: NaN or [-inf]. *)
Definition rejected_unrenderable (x : float) : bool :=
  negb (ge0 x) && negb (isfinite x).

(** Whether the validation errors of an order echo such a float as the
    rejected input. *)
Definition errors_unrenderable (o : Order.t) : bool :=
  existsb (fun i => rejected_unrenderable (OrderItem.price i)) (Order.items o)
  || rejected_unrenderable (Order.subtotal o)
  || rejected_unrenderable (Order.shipping_fee o)
  || rejected_unrenderable (Order.total_amount o).

(** FastAPI validates the request body against the model before it calls
    the handler.  When validation fails the handler is not called and the
    answer is 422 with the list of errors, each echoing the rejected input;
    when a rejected input is NaN or an infinity the body cannot be rendered
    ([json.dumps] with [allow_nan=False] raises [ValueError]) and the
    answer is 500. *)
Definition post_api_orders (cfg : Config) (gateway : Gateway)
    (urandom4 : list byte) (payload : CreateOrderPayload.t) : M dict :=
  if CreateOrderPayload.validate payload
  then create_order cfg gateway urandom4 payload
  else if errors_unrenderable (CreateOrderPayload.order payload)
  then raise (ValueError "Out of range float values are not JSON compliant")
  else raise RequestValidationError.

(** The status of the HTTP response an outcome becomes. *)
Definition http_status {A} (r : exn + A) : Z :=
  match r with
  | inr _ => 200
  | inl (HTTPException c _) => c
  | inl RequestValidationError => 422
  | inl _ => 500
  end.

Definition is_client_error (c : Z) : bool := (400 <=? c)%Z && (c <? 500)%Z.

(** ** Sample data: the end-to-end scenario of the specification *)

Definition configured : Config := mkConfig "rzp_test_key" "secret".
Definition unconfigured : Config := mkConfig "" "".

Definition bottle : OrderItem.t :=
  OrderItem.mk "64f0c0ffee" "Oud Royale" 100 (float_of_decimal 1500 1) 1.

Definition draft (total : float) (status : string) : Order.t :=
  Order.mk "Asha" "asha@example.com" "+911234567890" "12 MG Road"
    [bottle] (float_of_decimal 1500 1) (float_of_decimal 50 1) total
    "INR" status None None None None None.

Definition empty_world : World := mkWorld [] 0x65a1b2c3d4e5f60718293a4b [].

Definition gateway_ok (id : string) : Gateway :=
  fun _ => inr (mkResponse 200 "{}" (inr (Some id))).

Definition gateway_fail (code : Z) (body : string) : Gateway :=
  fun _ => inr (mkResponse code body (inl (JSONDecodeError "Expecting value"))).

Definition urandom_sample : list byte := [xde; xad; xbe; xef].

Definition scenario_payload : CreateOrderPayload.t :=
  CreateOrderPayload.mk (draft (float_of_decimal 1550 1) "pending").

(** The store after the scenario's order was created with the gateway
    configured and answering with the intent ["order_ABC123"]. *)
Definition scenario_world : World :=
  snd (create_order configured (gateway_ok "order_ABC123") urandom_sample
         scenario_payload empty_world).

(** The frame of a status update: the same identifier, and the same order
    but for its [status]. *)
Definition same_but_status (d d' : Document) : Prop :=
  _id d' = _id d /\
  data d' = Order.set_status (Order.status (data d')) (data d).

Definition skipped : dict :=
  [("status", JStr "skipped"); ("reason", JStr "Razorpay not configured")].
Definition success : dict := [("status", JStr "success")].

Arguments generated_signature : simpl never.

(** ** Notions for the properties of the whole lifecycle *)

(** [d.get(k)] on a returned object. *)
Fixpoint dict_get (k : string) (d : dict) : option json :=
  match d with
  | [] => None
  | (k', v) :: d' => if String.eqb k k' then Some v else dict_get k d'
  end.

(** The identifiers in the collection were all handed out by the store:
    they are below the next one, and no two documents share one. *)
Definition store_wf (w : World) : Prop :=
  Forall (fun d => (_id d < next_oid w)%N) (db_order w) /\
  NoDup (map _id (db_order w)).

(** What leaves a handler as an exception is an [HTTPException] with
    status 500. *)
Definition raises_only_500 (r : exn + dict) : Prop :=
  match r with
  | inl e => exists msg : string, e = HTTPException 500 msg
  | inr _ => True
  end.

(** A stored order with its status replaced. *)
Definition with_status (s : string) (d : Document) : Document :=
  mkDocument (_id d) (Order.set_status s (data d)).

(** What every call [create_order] makes has in common, whatever the
    order. *)
Definition well_formed_request (cfg : Config) (r : GatewayRequest) : Prop :=
  url r = "https://api.razorpay.com/v1/orders" /\
  auth r = (RAZORPAY_KEY_ID cfg, RAZORPAY_KEY_SECRET cfg) /\
  payment_capture r = 1%Z /\ timeout r = 15%Z.

(** A second order sharing the scenario's intent identifier, stored after
    it. *)
Definition duplicate_world : World :=
  mkWorld (db_order scenario_world ++
             [mkDocument (next_oid scenario_world)
                (Order.set_razorpay_order_id (Some "order_ABC123")
                   (draft (float_of_decimal 4999 100) "pending"))])
          (N.succ (next_oid scenario_world)) (outbound scenario_world).

(** * Properties *)

(** ** The store *)

Section UpdateOne.

Variable f : Filter.
Variable s : string.

Lemma set_status_same (o : Order.t) : Order.set_status (Order.status o) o = o.
Proof. destruct o; reflexivity. Qed.

Lemma matches_set_status (d : Document) (s' : string) :
  matches f (mkDocument (_id d) (Order.set_status s' (data d))) = matches f d.
Proof. destruct f; reflexivity. Qed.

Lemma update_one_docs_no_match (docs : list Document) :
  find_one f docs = None -> update_one_docs f s docs = docs.
Proof.
  unfold find_one.
  induction docs as [|d docs IH]; simpl; [reflexivity|].
  destruct (matches f d); [discriminate|].
  intros H; now rewrite IH.
Qed.

Lemma find_one_update_one (docs : list Document) :
  find_one f (update_one_docs f s docs)
  = option_map (fun d => mkDocument (_id d) (Order.set_status s (data d)))
               (find_one f docs).
Proof.
  unfold find_one.
  induction docs as [|d0 docs IH]; simpl; [reflexivity|].
  destruct (matches f d0) eqn:E; simpl.
  - now rewrite matches_set_status, E.
  - now rewrite E.
Qed.

Lemma update_one_docs_idempotent (docs : list Document) :
  update_one_docs f s (update_one_docs f s docs) = update_one_docs f s docs.
Proof.
  induction docs as [|d docs IH]; simpl; [reflexivity|].
  destruct (matches f d) eqn:E; simpl.
  - now rewrite matches_set_status, E.
  - now rewrite E, IH.
Qed.

Lemma same_but_status_refl (docs : list Document) :
  Forall2 same_but_status docs docs.
Proof.
  induction docs as [|d docs IH]; constructor; [|exact IH].
  split; [reflexivity|]. symmetry; apply set_status_same.
Qed.

Lemma update_one_docs_frame (docs : list Document) :
  Forall2 same_but_status docs (update_one_docs f s docs).
Proof.
  induction docs as [|d docs IH]; simpl; [constructor|].
  destruct (matches f d).
  - constructor; [|apply same_but_status_refl]. split; reflexivity.
  - constructor; [|exact IH].
    split; [reflexivity|]. symmetry; apply set_status_same.
Qed.

End UpdateOne.

Lemma find_one_none_iff (v : string) (docs : list Document) :
  find_one (by_razorpay_order_id v) docs = None <->
  (forall d, In d docs -> Order.razorpay_order_id (data d) <> Some v).
Proof.
  unfold find_one. split.
  - intros H d Hin Heq.
    apply (find_none _ _ H) in Hin. simpl in Hin.
    rewrite Heq in Hin. simpl in Hin. now rewrite String.eqb_refl in Hin.
  - intros H. induction docs as [|d docs IH]; simpl; [reflexivity|].
    destruct (option_string_eqb (Order.razorpay_order_id (data d)) v) eqn:E.
    + exfalso. apply (H d); [now left|].
      destruct (Order.razorpay_order_id (data d)) as [x|]; simpl in E;
        [|discriminate].
      apply String.eqb_eq in E. now subst.
    + apply IH. intros d' Hd'. apply H. now right.
Qed.

Lemma same_but_status_razorpay_order_id (l l' : list Document) :
  Forall2 same_but_status l l' ->
  map (fun d => (_id d, Order.razorpay_order_id (data d))) l'
  = map (fun d => (_id d, Order.razorpay_order_id (data d))) l.
Proof.
  induction 1 as [|d d' l l' [Hid Hd] _ IH]; simpl; [reflexivity|].
  rewrite IH, Hid, Hd. reflexivity.
Qed.

(** ** The handlers, unfolded *)

Lemma verify_payment_unfold (cfg : Config) (body : PaymentVerification.t)
    (w : World) :
  verify_payment cfg body w =
  if not_ (RAZORPAY_KEY_SECRET cfg) then (inr skipped, w)
  else if String.eqb
            (generated_signature (RAZORPAY_KEY_SECRET cfg)
               (PaymentVerification.razorpay_order_id body)
               (PaymentVerification.razorpay_payment_id body))
            (PaymentVerification.razorpay_signature body)
       then (inr success,
             mkWorld (update_one_docs
                        (by_razorpay_order_id
                           (PaymentVerification.razorpay_order_id body))
                        "paid" (db_order w))
                     (next_oid w) (outbound w))
       else (inl (HTTPException 500 "400: Invalid signature"), w).
Proof.
  unfold verify_payment.
  destruct (not_ (RAZORPAY_KEY_SECRET cfg)); [reflexivity|].
  unfold try_except.
  destruct (String.eqb _ _); reflexivity.
Qed.

Lemma update_order_status_unfold (order_id : string)
    (body : UpdateOrderStatus.t) (w : World) :
  update_order_status order_id body w =
  match ObjectId order_id with
  | inr oid =>
      (inr [("status", JStr "updated")],
       mkWorld (update_one_docs (by_id oid) (UpdateOrderStatus.status body)
                  (db_order w))
               (next_oid w) (outbound w))
  | inl e => (inl (HTTPException 500 (str e)), w)
  end.
Proof.
  unfold update_order_status, try_except, bind, lift.
  destruct (ObjectId order_id); reflexivity.
Qed.

Lemma create_order_unfold (cfg : Config) (gateway : Gateway)
    (urandom4 : list byte) (payload : CreateOrderPayload.t) (w : World) :
  create_order cfg gateway urandom4 payload w =
  let order := CreateOrderPayload.order payload in
  if not_ (RAZORPAY_KEY_ID cfg) || not_ (RAZORPAY_KEY_SECRET cfg) then
    (inr [("order_id", JStr (str_ObjectId (next_oid w)));
          ("razorpay", JStr "not_configured")],
     mkWorld (db_order w ++ [mkDocument (next_oid w) order])
             (N.succ (next_oid w)) (outbound w))
  else
    match int (fmul (Order.total_amount order) (float_of_Z 100)) with
    | inl e => (inl (HTTPException 500 (str e)), w)
    | inr amount_paise =>
        let req := gateway_request cfg urandom4 order amount_paise in
        let w1 := mkWorld (db_order w) (next_oid w) (outbound w ++ [req]) in
        match gateway req with
        | inl e => (inl (HTTPException 500 (str e)), w1)
        | inr r =>
            if (300 <=? status_code r)%Z
            then (inl (HTTPException 500 ("502: " ++ text r)), w1)
            else
              match json_id r with
              | inl e => (inl (HTTPException 500 (str e)), w1)
              | inr data_id =>
                  (inr [("order_id", JStr (str_ObjectId (next_oid w)));
                        ("razorpay_order_id", json_of_option data_id);
                        ("amount", JInt amount_paise)],
                   mkWorld (db_order w ++
                              [mkDocument (next_oid w)
                                 (Order.set_razorpay_order_id data_id order)])
                           (N.succ (next_oid w)) (outbound w ++ [req]))
              end
        end
    end.
Proof.
  unfold create_order. cbv zeta.
  destruct (not_ (RAZORPAY_KEY_ID cfg) || not_ (RAZORPAY_KEY_SECRET cfg));
    [reflexivity|].
  unfold try_except, bind, lift, requests_post.
  destruct (int _) as [e|amount_paise]; [reflexivity|].
  destruct (gateway _) as [e|r]; [reflexivity|].
  destruct (300 <=? status_code r)%Z; [reflexivity|].
  destruct (json_id r) as [e|data_id]; reflexivity.
Qed.

(** ** Hexadecimal digests *)

Lemma hex_digit_lower (n : N) : is_lower_hex (hex_digit n) = true.
Proof.
  unfold hex_digit.
  assert (H : (N.to_nat (n mod 16) < 16)%nat).
  { pose proof (N.mod_upper_bound n 16). lia. }
  revert H. generalize (N.to_nat (n mod 16)) as k. intros k H.
  do 16 (destruct k as [|k]; [reflexivity|]). lia.
Qed.

Lemma hex_length (bs : list byte) :
  String.length (hex bs) = (2 * List.length bs)%nat.
Proof.
  induction bs as [|b bs IH]; simpl; [reflexivity|]. rewrite IH. lia.
Qed.

Lemma hex_lower (bs : list byte) :
  forallb is_lower_hex (list_ascii_of_string (hex bs)) = true.
Proof.
  induction bs as [|b bs IH]; [reflexivity|].
  cbn [hex hex_of_byte String.append list_ascii_of_string forallb].
  now rewrite !hex_digit_lower, IH.
Qed.

Lemma hex_nonempty (b : byte) (bs : list byte) : hex (b :: bs) <> "".
Proof. simpl. discriminate. Qed.

Lemma sha256_length (msg : list byte) :
  List.length (SHA256.sha256 msg) = 32%nat.
Proof.
  unfold SHA256.sha256, SHA256.digest_of_state.
  generalize (SHA256.absorb (List.length (SHA256.words (SHA256.pad msg)))
                SHA256.H0 (SHA256.words (SHA256.pad msg))).
  intros st. reflexivity.
Qed.

(** ** HMAC: the library's construction is RFC 2104's *)

Lemma xor_bytes_repeat (c : byte) (xs : list byte) (n : nat) :
  (List.length xs <= n)%nat ->
  RFC2104.xor_bytes xs (repeat c n) = map (fun b => RFC2104.xor_byte b c) xs.
Proof.
  revert n. induction xs as [|x xs IH]; intros n Hn.
  - destruct n; reflexivity.
  - destruct n as [|n]; simpl in Hn; [lia|].
    simpl. f_equal. apply IH. lia.
Qed.

Lemma block_key_length (K : list byte) :
  List.length (RFC2104.block_key K) = 64%nat.
Proof.
  unfold RFC2104.block_key, RFC2104.B.
  destruct (64 <? List.length K)%nat eqn:E.
  - rewrite length_app, repeat_length, sha256_length. reflexivity.
  - apply Nat.ltb_ge in E. rewrite length_app, repeat_length. lia.
Qed.

Lemma hmac_digest_rfc2104 (key msg : list byte) :
  hmac.digest (hmac.new key msg) = RFC2104.HMAC_SHA256 key msg.
Proof.
  unfold hmac.digest, hmac.new, RFC2104.HMAC_SHA256.
  cbn [hmac.inner hmac.outer].
  change (hmac.ljust
            (if (SHA256.block_size <? List.length key)%nat
             then SHA256.sha256 key else key) SHA256.block_size)
    with (RFC2104.block_key key).
  unfold RFC2104.ipad, RFC2104.opad, RFC2104.B.
  rewrite !xor_bytes_repeat by (rewrite block_key_length; lia).
  reflexivity.
Qed.

(** ** verify_payment *)

Lemma update_one_docs_first_match (f : Filter) (s : string)
    (l1 l2 : list Document) (d : Document) :
  Forall (fun x => matches f x = false) l1 -> matches f d = true ->
  update_one_docs f s (l1 ++ d :: l2)
  = l1 ++ mkDocument (_id d) (Order.set_status s (data d)) :: l2.
Proof.
  intros Hl Hd. induction Hl as [|x l Hx _ IH]; simpl.
  - now rewrite Hd.
  - now rewrite Hx, IH.
Qed.

Lemma matches_razorpay_order_id (oid : string) (d : Document) :
  matches (by_razorpay_order_id oid) d = true
  <-> Order.razorpay_order_id (data d) = Some oid.
Proof.
  simpl. destruct (Order.razorpay_order_id (data d)) as [v|]; simpl.
  - rewrite String.eqb_eq. split; congruence.
  - split; discriminate.
Qed.

(** C1. With a secret configured, a request whose signature is the
    HMAC-SHA256 hex digest of [order_id + "|" + payment_id] under the secret
    is answered with success, and the stored order [d] whose
    [razorpay_order_id] is the request's (the first such order, no order
    before it in the collection carrying that identifier) has status
    ["paid"] afterwards: the collection is as before but for [d], which
    keeps its identifier and every member other than [status].  A second
    call with the same body succeeds again and leaves the world exactly as
    the first call left it, so the order stays ["paid"]. *)
Theorem verify_payment_marks_paid_idempotent
    (cfg : Config) (oid pid : string) (w : World)
    (l1 l2 : list Document) (d : Document) :
  not_ (RAZORPAY_KEY_SECRET cfg) = false ->
  db_order w = l1 ++ d :: l2 ->
  Order.razorpay_order_id (data d) = Some oid ->
  (forall x, In x l1 -> Order.razorpay_order_id (data x) <> Some oid) ->
  let body :=
    PaymentVerification.mk oid pid
      (generated_signature (RAZORPAY_KEY_SECRET cfg) oid pid) in
  let w1 := snd (verify_payment cfg body w) in
  let d' := mkDocument (_id d) (Order.set_status "paid" (data d)) in
  fst (verify_payment cfg body w) = inr success /\
  db_order w1 = l1 ++ d' :: l2 /\
  In d' (db_order w1) /\
  Order.razorpay_order_id (data d') = Some oid /\
  Order.status (data d') = "paid" /\
  verify_payment cfg body w1 = (inr success, w1).
Proof.
  intros Hs Hdb Hd Hl1 body w1 d'. subst w1 d'.
  assert (Hu : update_one_docs (by_razorpay_order_id oid) "paid" (db_order w)
               = l1 ++ mkDocument (_id d) (Order.set_status "paid" (data d))
                    :: l2).
  { rewrite Hdb. apply update_one_docs_first_match.
    - rewrite Forall_forall. intros x Hx.
      destruct (matches (by_razorpay_order_id oid) x) eqn:E; [|reflexivity].
      apply matches_razorpay_order_id in E. now apply Hl1 in Hx.
    - now apply matches_razorpay_order_id. }
  rewrite !verify_payment_unfold, Hs. subst body.
  cbn [PaymentVerification.razorpay_order_id
       PaymentVerification.razorpay_payment_id
       PaymentVerification.razorpay_signature].
  rewrite String.eqb_refl.
  cbn [fst snd db_order next_oid outbound].
  rewrite update_one_docs_idempotent, Hu.
  repeat split.
  - apply in_or_app. right. now left.
  - destruct d as [i o]. destruct o. exact Hd.
Qed.

Lemma verify_payment_marks_paid_idempotent_witness :
  let d := mkDocument (next_oid empty_world)
             (Order.set_razorpay_order_id (Some "order_ABC123")
                (draft (float_of_decimal 1550 1) "pending")) in
  let dup := mkDocument (next_oid scenario_world)
               (Order.set_razorpay_order_id (Some "order_ABC123")
                  (draft (float_of_decimal 4999 100) "pending")) in
  let body :=
    PaymentVerification.mk "order_ABC123" "pay_XYZ789"
      (generated_signature (RAZORPAY_KEY_SECRET configured)
         "order_ABC123" "pay_XYZ789") in
  let w1 := snd (verify_payment configured body duplicate_world) in
  let d' := mkDocument (_id d) (Order.set_status "paid" (data d)) in
  not_ (RAZORPAY_KEY_SECRET configured) = false /\
  db_order duplicate_world = [] ++ d :: [dup] /\
  Order.razorpay_order_id (data d) = Some "order_ABC123" /\
  (forall x, In x [] -> Order.razorpay_order_id (data x) <> Some "order_ABC123") /\
  Order.status (data d) = "pending" /\
  (fst (verify_payment configured body duplicate_world) = inr success /\
   db_order w1 = [] ++ d' :: [dup] /\
   In d' (db_order w1) /\
   Order.razorpay_order_id (data d') = Some "order_ABC123" /\
   Order.status (data d') = "paid" /\
   verify_payment configured body w1 = (inr success, w1)).
Proof.
  cbv zeta.
  split; [reflexivity|]. split; [vm_compute; reflexivity|].
  split; [reflexivity|]. split; [intros x []|]. split; [reflexivity|].
  apply (verify_payment_marks_paid_idempotent configured
           "order_ABC123" "pay_XYZ789" duplicate_world []
           [mkDocument (next_oid scenario_world)
              (Order.set_razorpay_order_id (Some "order_ABC123")
                 (draft (float_of_decimal 4999 100) "pending"))]
           (mkDocument (next_oid empty_world)
              (Order.set_razorpay_order_id (Some "order_ABC123")
                 (draft (float_of_decimal 1550 1) "pending"))));
    [reflexivity | vm_compute; reflexivity | reflexivity | intros x []].
Defined.

(** The end-to-end scenario of the specification, run: the order created
    through the configured gateway is pending with the intent attached, and
    verification with the digest of ["order_ABC123|pay_XYZ789"] makes it
    paid. *)
Example scenario_runs :
  map amount (outbound scenario_world) = [155000%Z] /\
  map (fun d => (Order.razorpay_order_id (data d), Order.status (data d)))
      (db_order scenario_world) = [(Some "order_ABC123", "pending")] /\
  generated_signature "secret" "order_ABC123" "pay_XYZ789"
  = "e1c68b8d90292f009075cf1520fedfd4312870157b183df16c6d1390f767c446" /\
  map (fun d => (Order.razorpay_order_id (data d), Order.status (data d)))
      (db_order
         (snd (verify_payment configured
                 (PaymentVerification.mk "order_ABC123" "pay_XYZ789"
                    "e1c68b8d90292f009075cf1520fedfd4312870157b183df16c6d1390f767c446")
                 scenario_world)))
  = [(Some "order_ABC123", "paid")].
Proof. vm_compute. repeat split. Qed.

(** A signature that differs from the computed one: the [HTTPException]
    with status 400 raised inside the [try] is caught by
    [except Exception] and raised again with status 500; nothing is
    written. *)
Lemma verify_payment_mismatch (cfg : Config) (body : PaymentVerification.t)
    (w : World) :
  not_ (RAZORPAY_KEY_SECRET cfg) = false ->
  PaymentVerification.razorpay_signature body
  <> generated_signature (RAZORPAY_KEY_SECRET cfg)
       (PaymentVerification.razorpay_order_id body)
       (PaymentVerification.razorpay_payment_id body) ->
  verify_payment cfg body w
  = (inl (HTTPException 500 "400: Invalid signature"), w).
Proof.
  intros Hs Hneq. rewrite verify_payment_unfold, Hs.
  destruct (String.eqb _ _) eqn:E; [|reflexivity].
  apply String.eqb_eq in E. congruence.
Qed.

(** C4, at a forged signature for the scenario's order with the secret
    configured: the world is unchanged, as the claim says, but the response
    is the server error 500 with detail ["400: Invalid signature"], not a
    client error. *)
Theorem verify_payment_forged_signature_is_500 :
  let body := PaymentVerification.mk "order_ABC123" "pay_XYZ789" "forged" in
  let r := verify_payment configured body scenario_world in
  r = (inl (HTTPException 500 "400: Invalid signature"), scenario_world) /\
  http_status (fst r) = 500%Z /\
  is_client_error (http_status (fst r)) = false.
Proof. vm_compute. repeat split. Qed.

(** C8. With a secret configured and a valid signature, when no stored
    order carries the supplied [razorpay_order_id] the handler answers
    success and the world is unchanged: the update matches nothing. *)
Theorem verify_payment_no_match_silent_success
    (cfg : Config) (oid pid : string) (w : World) :
  not_ (RAZORPAY_KEY_SECRET cfg) = false ->
  (forall d, In d (db_order w) ->
     Order.razorpay_order_id (data d) <> Some oid) ->
  verify_payment cfg
    (PaymentVerification.mk oid pid
       (generated_signature (RAZORPAY_KEY_SECRET cfg) oid pid)) w
  = (inr success, w).
Proof.
  intros Hs Hnone. rewrite verify_payment_unfold, Hs.
  cbn [PaymentVerification.razorpay_order_id
       PaymentVerification.razorpay_payment_id
       PaymentVerification.razorpay_signature].
  rewrite String.eqb_refl.
  rewrite update_one_docs_no_match by now apply find_one_none_iff.
  destruct w; reflexivity.
Qed.

Lemma verify_payment_no_match_silent_success_witness :
  not_ (RAZORPAY_KEY_SECRET configured) = false /\
  (forall d, In d (db_order scenario_world) ->
     Order.razorpay_order_id (data d) <> Some "order_UNKNOWN") /\
  verify_payment configured
    (PaymentVerification.mk "order_UNKNOWN" "pay_XYZ789"
       (generated_signature (RAZORPAY_KEY_SECRET configured)
          "order_UNKNOWN" "pay_XYZ789")) scenario_world
  = (inr success, scenario_world).
Proof.
  assert (H : forall d, In d (db_order scenario_world) ->
                Order.razorpay_order_id (data d) <> Some "order_UNKNOWN").
  { apply find_one_none_iff. reflexivity. }
  split; [reflexivity|]. split; [exact H|].
  apply (verify_payment_no_match_silent_success configured
           "order_UNKNOWN" "pay_XYZ789" scenario_world); [reflexivity|exact H].
Defined.

(** C9. With no secret configured ([RAZORPAY_KEY_SECRET] empty) the handler
    returns the ["skipped"] object, a normal response and no exception,
    whatever the body holds, and the world is unchanged. *)
Theorem verify_payment_skipped_without_secret
    (key_id : string) (body : PaymentVerification.t) (w : World) :
  verify_payment (mkConfig key_id "") body w = (inr skipped, w) /\
  http_status (fst (verify_payment (mkConfig key_id "") body w)) = 200%Z.
Proof. rewrite verify_payment_unfold. split; reflexivity. Qed.

(** C7. The signature [verify_payment] computes is the lowercase hexadecimal
    rendering (64 digits) of HMAC-SHA256, as RFC 2104 defines it, with the
    secret as key over [order_id + "|" + payment_id]; it is a function of
    these three strings alone: the outcome of a verification does not depend
    on the world it runs in, and is decided by comparing the supplied
    signature with that digest. *)
Theorem generated_signature_is_hmac_sha256_hex (secret oid pid : string) :
  let expected :=
    hex (RFC2104.HMAC_SHA256 (bytes secret) (bytes (oid ++ "|" ++ pid))) in
  generated_signature secret oid pid = expected /\
  String.length (generated_signature secret oid pid) = 64%nat /\
  forallb is_lower_hex
    (list_ascii_of_string (generated_signature secret oid pid)) = true /\
  (forall key_id sig w w',
     fst (verify_payment (mkConfig key_id secret)
            (PaymentVerification.mk oid pid sig) w)
     = fst (verify_payment (mkConfig key_id secret)
              (PaymentVerification.mk oid pid sig) w')) /\
  (forall key_id sig w,
     fst (verify_payment (mkConfig key_id secret)
            (PaymentVerification.mk oid pid sig) w)
     = if not_ secret then inr skipped
       else if String.eqb expected sig then inr success
       else inl (HTTPException 500 "400: Invalid signature")).
Proof.
  intros expected.
  assert (E : generated_signature secret oid pid = expected).
  { unfold generated_signature, hmac.hexdigest, expected.
    now rewrite hmac_digest_rfc2104. }
  assert (V : forall key_id sig w,
     fst (verify_payment (mkConfig key_id secret)
            (PaymentVerification.mk oid pid sig) w)
     = if not_ secret then inr skipped
       else if String.eqb expected sig then inr success
       else inl (HTTPException 500 "400: Invalid signature")).
  { intros key_id sig w. rewrite verify_payment_unfold.
    cbn [RAZORPAY_KEY_SECRET PaymentVerification.razorpay_order_id
         PaymentVerification.razorpay_payment_id
         PaymentVerification.razorpay_signature].
    rewrite E. destruct (not_ secret); [reflexivity|].
    destruct (String.eqb expected sig); reflexivity. }
  split; [exact E|]. rewrite E. unfold expected.
  split; [unfold RFC2104.HMAC_SHA256; now rewrite hex_length, sha256_length|].
  split; [apply hex_lower|].
  split; [|exact V].
  intros key_id sig w w'. now rewrite !V.
Qed.

Example hmac_rfc4231_case_2 :
  hmac.hexdigest (hmac.new (bytes "Jefe") (bytes "what do ya want for nothing?"))
  = "5bdcc146bf60754e6a042426089575c75a003f089d2739839dec58b964ec3843".
Proof. vm_compute. reflexivity. Qed.

Example sha256_constants :
  List.length SHA256.K = 64%nat /\
  nth 0 SHA256.K 0%N = 0x428a2f98%N /\ nth 63 SHA256.K 0%N = 0xc67178f2%N /\
  SHA256.sa SHA256.H0 = 0x6a09e667%N /\ SHA256.sh SHA256.H0 = 0x5be0cd19%N.
Proof. vm_compute. repeat split. Qed.

Example sha256_abc :
  hex (SHA256.sha256 (bytes "abc"))
  = "ba7816bf8f01cfea414140de5dae2223b00361a396177a9cb410ff61f20015ad".
Proof. vm_compute. reflexivity. Qed.

(** ** create_order *)

Lemma hundred : float_of_Z 100 = S754_finite false 7036874417766400 (-46).
Proof. vm_compute. reflexivity. Qed.

(** With the gateway configured, the amount of the outbound call is
    [int(total_amount * 100)]: the product truncated toward zero. *)
Lemma create_order_sends_int (cfg : Config) (gateway : Gateway)
    (urandom4 : list byte) (payload : CreateOrderPayload.t) (w : World)
    (amount_paise : Z) :
  not_ (RAZORPAY_KEY_ID cfg) = false ->
  not_ (RAZORPAY_KEY_SECRET cfg) = false ->
  int (fmul (Order.total_amount (CreateOrderPayload.order payload))
            (float_of_Z 100)) = inr amount_paise ->
  outbound (snd (create_order cfg gateway urandom4 payload w))
  = outbound w ++
    [gateway_request cfg urandom4 (CreateOrderPayload.order payload)
       amount_paise].
Proof.
  intros Hk Hs Hi. rewrite create_order_unfold. cbv zeta.
  rewrite Hk, Hs, Hi. cbn [orb].
  destruct (gateway _) as [e|r]; [reflexivity|].
  destruct (300 <=? status_code r)%Z; [reflexivity|].
  destruct (json_id r); reflexivity.
Qed.

(** C2, at the total 19.99 of a valid order with the gateway configured:
    [19.99 * 100] is the float 1998.9999999999998, which [int] truncates to
    1998, the amount sent to the gateway and returned, while rounding to
    the nearest integer gives 1999.  On the specification's own example,
    49.99, the product is exactly 4999.0 and both agree. *)
Theorem create_order_truncates_amount :
  let total := float_of_decimal 1999 100 in
  let payload := CreateOrderPayload.mk (draft total "pending") in
  let run := create_order configured (gateway_ok "order_ABC123")
               urandom_sample payload empty_world in
  CreateOrderPayload.validate payload = true /\
  map amount (outbound (snd run)) = [1998%Z] /\
  fst run = inr [("order_id", JStr "65a1b2c3d4e5f60718293a4b");
                 ("razorpay_order_id", JStr "order_ABC123");
                 ("amount", JInt 1998)] /\
  round_nearest (fmul total (float_of_Z 100)) = inr 1999%Z /\
  int (fmul (float_of_decimal 4999 100) (float_of_Z 100)) = inr 4999%Z /\
  round_nearest (fmul (float_of_decimal 4999 100) (float_of_Z 100))
  = inr 4999%Z.
Proof. vm_compute. repeat split. Qed.

(** C3. With the gateway configured, when the call is made and the gateway
    answers with a status of 300 or more, the handler fails: the
    [HTTPException] with status 502 and the response text as detail passes
    through [except Exception] and leaves as status 500 with detail
    ["502: " + r.text], which still carries the raw body; no document is
    inserted, the only effect being the logged outbound call. *)
Theorem create_order_gateway_failure_persists_nothing
    (cfg : Config) (gateway : Gateway) (urandom4 : list byte)
    (payload : CreateOrderPayload.t) (w : World)
    (amount_paise : Z) (r : Response) :
  not_ (RAZORPAY_KEY_ID cfg) = false ->
  not_ (RAZORPAY_KEY_SECRET cfg) = false ->
  int (fmul (Order.total_amount (CreateOrderPayload.order payload))
            (float_of_Z 100)) = inr amount_paise ->
  gateway (gateway_request cfg urandom4 (CreateOrderPayload.order payload)
             amount_paise) = inr r ->
  (300 <= status_code r)%Z ->
  create_order cfg gateway urandom4 payload w
  = (inl (HTTPException 500 ("502: " ++ text r)),
     mkWorld (db_order w) (next_oid w)
       (outbound w ++
        [gateway_request cfg urandom4 (CreateOrderPayload.order payload)
           amount_paise])).
Proof.
  intros Hk Hs Hi Hg Hr. rewrite create_order_unfold. cbv zeta.
  rewrite Hk, Hs, Hi, Hg. cbn [orb].
  apply Z.leb_le in Hr. now rewrite Hr.
Qed.

Lemma create_order_gateway_failure_persists_nothing_witness :
  let payload := CreateOrderPayload.mk (draft (float_of_decimal 4999 100) "pending") in
  let req := gateway_request configured urandom_sample
               (CreateOrderPayload.order payload) 4999 in
  not_ (RAZORPAY_KEY_ID configured) = false /\
  not_ (RAZORPAY_KEY_SECRET configured) = false /\
  int (fmul (Order.total_amount (CreateOrderPayload.order payload))
            (float_of_Z 100)) = inr 4999%Z /\
  gateway_fail 401 "{auth failed}" req
  = inr (mkResponse 401 "{auth failed}"
           (inl (JSONDecodeError "Expecting value"))) /\
  (300 <= 401)%Z /\
  create_order configured (gateway_fail 401 "{auth failed}") urandom_sample
    payload scenario_world
  = (inl (HTTPException 500 "502: {auth failed}"),
     mkWorld (db_order scenario_world) (next_oid scenario_world)
       (outbound scenario_world ++ [req])).
Proof.
  cbv zeta.
  split; [reflexivity|]. split; [reflexivity|].
  split; [vm_compute; reflexivity|]. split; [reflexivity|].
  split; [lia|].
  apply (create_order_gateway_failure_persists_nothing configured
           (gateway_fail 401 "{auth failed}") urandom_sample
           (CreateOrderPayload.mk (draft (float_of_decimal 4999 100) "pending"))
           scenario_world 4999
           (mkResponse 401 "{auth failed}"
              (inl (JSONDecodeError "Expecting value"))));
    [reflexivity | reflexivity | vm_compute; reflexivity | reflexivity
    | simpl; lia].
Defined.

(** The handler on its own refuses every non-finite total, NaN included,
    before the gateway is called: [int] raises and the world is as it was. *)
Lemma create_order_non_finite_total (cfg : Config) (gateway : Gateway)
    (urandom4 : list byte) (payload : CreateOrderPayload.t) (w : World) :
  not_ (RAZORPAY_KEY_ID cfg) = false ->
  not_ (RAZORPAY_KEY_SECRET cfg) = false ->
  isfinite (Order.total_amount (CreateOrderPayload.order payload)) = false ->
  exists msg : string,
    create_order cfg gateway urandom4 payload w
    = (inl (HTTPException 500 msg), w).
Proof.
  intros Hk Hs Hx. rewrite create_order_unfold. cbv zeta.
  rewrite Hk, Hs, hundred. cbn [orb].
  destruct (Order.total_amount (CreateOrderPayload.order payload))
    as [sx|sx| |sx m e]; try discriminate; eexists; reflexivity.
Qed.

(** Only [+inf] among the non-finite or negative floats passes [ge=0]. *)
Lemma ge0_not_finite_or_negative (x : float) :
  ge0 x = true -> isfinite x = false \/ lt0 x = true ->
  x = S754_infinity false.
Proof.
  destruct x as [s|s| |s m e]; cbn; intros Hge [H|H];
    try discriminate; destruct s; try discriminate; reflexivity.
Qed.

(** C5 as stated fails.  [create_order] has no check of the amount: given
    a negative total, here -19.99, with the gateway configured it calls the
    gateway for -1998 paise and stores the order.  What stops such a body
    is the schema, before the handler runs, with a validation error. *)
Lemma create_order_accepts_negative_total :
  let payload :=
    CreateOrderPayload.mk (draft (float_of_decimal (-1999) 100) "pending") in
  let run := create_order configured (gateway_ok "order_NEG") urandom_sample
               payload empty_world in
  lt0 (Order.total_amount (CreateOrderPayload.order payload)) = true /\
  http_status (fst run) = 200%Z /\
  map amount (outbound (snd run)) = [(-1998)%Z] /\
  List.length (db_order (snd run)) = 1%nat /\
  post_api_orders configured (gateway_ok "order_NEG") urandom_sample
    payload empty_world
  = (inl RequestValidationError, empty_world).
Proof. vm_compute. repeat split. Qed.

(** C5, amended.  With the gateway configured, a request whose
    [total_amount] is not finite or is negative is refused with the world
    left as it was, so before any gateway call or insertion, but by no
    amount check of the handler: either the schema's [ge=0] refuses the body
    before the handler runs (a negative total, [-inf], NaN), the answer
    being the validation error 422, or 500 when a rejected value is NaN or
    [-inf] and the error body cannot be rendered; or the total is [+inf],
    passes the schema, and [int] raises in the handler, which answers
    500. *)
Theorem post_api_orders_rejects_invalid_total
    (cfg : Config) (gateway : Gateway) (urandom4 : list byte)
    (payload : CreateOrderPayload.t) (w : World) :
  not_ (RAZORPAY_KEY_ID cfg) = false ->
  not_ (RAZORPAY_KEY_SECRET cfg) = false ->
  isfinite (Order.total_amount (CreateOrderPayload.order payload)) = false \/
  lt0 (Order.total_amount (CreateOrderPayload.order payload)) = true ->
  exists e : exn,
    post_api_orders cfg gateway urandom4 payload w = (inl e, w) /\
    ((CreateOrderPayload.validate payload = false /\
      e = (if errors_unrenderable (CreateOrderPayload.order payload)
           then ValueError "Out of range float values are not JSON compliant"
           else RequestValidationError) /\
      http_status (@inl exn dict e)
      = (if errors_unrenderable (CreateOrderPayload.order payload)
         then 500 else 422)%Z) \/
     (CreateOrderPayload.validate payload = true /\
      Order.total_amount (CreateOrderPayload.order payload)
      = S754_infinity false /\
      e = HTTPException 500 "cannot convert float infinity to integer")) /\
    (Order.total_amount (CreateOrderPayload.order payload) = S754_nan \/
     Order.total_amount (CreateOrderPayload.order payload)
     = S754_infinity true ->
     http_status (@inl exn dict e) = 500%Z).
Proof.
  intros Hk Hs Hbad. unfold post_api_orders.
  destruct (CreateOrderPayload.validate payload) eqn:V.
  - assert (Hge : ge0 (Order.total_amount (CreateOrderPayload.order payload))
                  = true).
    { unfold CreateOrderPayload.validate, Order.validate in V.
      repeat (apply andb_prop in V; destruct V as [V ?]). assumption. }
    pose proof (ge0_not_finite_or_negative _ Hge Hbad) as Hinf.
    eexists. split; [|split].
    + rewrite create_order_unfold. cbv zeta.
      rewrite Hk, Hs, Hinf, hundred. reflexivity.
    + right. split; [reflexivity|]. split; [exact Hinf|reflexivity].
    + intros [E|E]; rewrite E in Hinf; discriminate.
  - destruct (errors_unrenderable (CreateOrderPayload.order payload)) eqn:U.
    + eexists. split; [reflexivity|]. split.
      * left. split; [reflexivity|]. split; reflexivity.
      * reflexivity.
    + eexists. split; [reflexivity|]. split.
      * left. split; [reflexivity|]. split; reflexivity.
      * intros E. exfalso. unfold errors_unrenderable in U.
        apply orb_false_elim in U. destruct U as [_ U].
        destruct E as [E|E]; rewrite E in U; discriminate.
Qed.

Lemma post_api_orders_rejects_invalid_total_witness :
  let payload := CreateOrderPayload.mk (draft S754_nan "pending") in
  not_ (RAZORPAY_KEY_ID configured) = false /\
  not_ (RAZORPAY_KEY_SECRET configured) = false /\
  (isfinite (Order.total_amount (CreateOrderPayload.order payload)) = false \/
   lt0 (Order.total_amount (CreateOrderPayload.order payload)) = true) /\
  exists e : exn,
    post_api_orders configured (gateway_ok "order_ABC123") urandom_sample
      payload scenario_world = (inl e, scenario_world) /\
    ((CreateOrderPayload.validate payload = false /\
      e = (if errors_unrenderable (CreateOrderPayload.order payload)
           then ValueError "Out of range float values are not JSON compliant"
           else RequestValidationError) /\
      http_status (@inl exn dict e)
      = (if errors_unrenderable (CreateOrderPayload.order payload)
         then 500 else 422)%Z) \/
     (CreateOrderPayload.validate payload = true /\
      Order.total_amount (CreateOrderPayload.order payload)
      = S754_infinity false /\
      e = HTTPException 500 "cannot convert float infinity to integer")) /\
    (Order.total_amount (CreateOrderPayload.order payload) = S754_nan \/
     Order.total_amount (CreateOrderPayload.order payload)
     = S754_infinity true ->
     http_status (@inl exn dict e) = 500%Z).
Proof.
  cbv zeta.
  split; [reflexivity|]. split; [reflexivity|].
  split; [left; reflexivity|].
  apply (post_api_orders_rejects_invalid_total configured
           (gateway_ok "order_ABC123") urandom_sample
           (CreateOrderPayload.mk (draft S754_nan "pending"))
           scenario_world);
    [reflexivity | reflexivity | left; reflexivity].
Defined.

(** The answers at the boundary for a negative, a NaN, a [-inf] and a
    [+inf] total. *)
Example post_api_orders_statuses :
  map (fun total =>
         http_status
           (fst (post_api_orders configured (gateway_ok "order_ABC123")
                   urandom_sample
                   (CreateOrderPayload.mk (draft total "pending"))
                   scenario_world)))
      [float_of_decimal (-1999) 100; S754_nan; S754_infinity true;
       S754_infinity false]
  = [422; 500; 500; 500]%Z.
Proof. vm_compute. reflexivity. Qed.

(** An infinite total reaches the handler and fails there. *)
Example post_api_orders_infinite_total :
  post_api_orders configured (gateway_ok "order_ABC123") urandom_sample
    (CreateOrderPayload.mk (draft (S754_infinity false) "pending"))
    scenario_world
  = (inl (HTTPException 500 "cannot convert float infinity to integer"),
     scenario_world).
Proof. vm_compute. reflexivity. Qed.

Lemma str_ObjectId_length (o : ObjectId_t) :
  String.length (str_ObjectId o) = 24%nat.
Proof. unfold str_ObjectId. rewrite hex_length. reflexivity. Qed.

(** C6 as stated fails: a valid draft may carry any status of the schema's
    literal, and with the gateway not configured it is persisted with that
    status, here ["paid"], not ["pending"]. *)
Lemma create_order_unconfigured_persists_paid_draft :
  let payload :=
    CreateOrderPayload.mk (draft (float_of_decimal 1550 1) "paid") in
  let w' := snd (post_api_orders unconfigured (gateway_ok "order_ABC123")
                   urandom_sample payload empty_world) in
  CreateOrderPayload.validate payload = true /\
  map (fun d => Order.status (data d)) (db_order w') = ["paid"] /\
  ~ (forall d, In d (db_order w') -> Order.status (data d) = "pending").
Proof.
  cbv zeta. split; [vm_compute; reflexivity|].
  split; [vm_compute; reflexivity|].
  intros H.
  specialize (H (mkDocument (next_oid empty_world)
                   (draft (float_of_decimal 1550 1) "paid"))).
  assert (Hin : In (mkDocument (next_oid empty_world)
                      (draft (float_of_decimal 1550 1) "paid"))
                   (db_order
                      (snd (post_api_orders unconfigured
                              (gateway_ok "order_ABC123") urandom_sample
                              (CreateOrderPayload.mk
                                 (draft (float_of_decimal 1550 1) "paid"))
                              empty_world)))).
  { left. reflexivity. }
  apply H in Hin. discriminate Hin.
Qed.

(** C6, amended.  With the gateway not configured (either credential
    empty), [create_order] inserts exactly one document, the draft as it is
    (so with the draft's own status, ["pending"] when the draft has the
    schema's default), returns the generated identifier, a string of 24
    characters, with the marker ["razorpay": "not_configured"] as a normal
    response, and makes no outbound call. *)
Theorem create_order_unconfigured_persists_draft
    (cfg : Config) (gateway : Gateway) (urandom4 : list byte)
    (payload : CreateOrderPayload.t) (w : World) :
  not_ (RAZORPAY_KEY_ID cfg) || not_ (RAZORPAY_KEY_SECRET cfg) = true ->
  create_order cfg gateway urandom4 payload w
  = (inr [("order_id", JStr (str_ObjectId (next_oid w)));
          ("razorpay", JStr "not_configured")],
     mkWorld (db_order w ++
                [mkDocument (next_oid w) (CreateOrderPayload.order payload)])
             (N.succ (next_oid w)) (outbound w)) /\
  str_ObjectId (next_oid w) <> "" /\
  String.length (str_ObjectId (next_oid w)) = 24%nat /\
  (Order.status (CreateOrderPayload.order payload) = "pending" ->
   forall d,
     In d [mkDocument (next_oid w) (CreateOrderPayload.order payload)] ->
     Order.status (data d) = "pending").
Proof.
  intros H. rewrite create_order_unfold. cbv zeta. rewrite H.
  split; [reflexivity|].
  split; [unfold str_ObjectId; apply hex_nonempty|].
  split; [apply str_ObjectId_length|].
  intros Hp d [<-|[]]. exact Hp.
Qed.

Lemma create_order_unconfigured_persists_draft_witness :
  not_ (RAZORPAY_KEY_ID unconfigured) || not_ (RAZORPAY_KEY_SECRET unconfigured)
  = true /\
  create_order unconfigured (gateway_ok "order_ABC123") urandom_sample
    scenario_payload empty_world
  = (inr [("order_id", JStr (str_ObjectId (next_oid empty_world)));
          ("razorpay", JStr "not_configured")],
     mkWorld (db_order empty_world ++
                [mkDocument (next_oid empty_world)
                   (CreateOrderPayload.order scenario_payload)])
             (N.succ (next_oid empty_world)) (outbound empty_world)) /\
  str_ObjectId (next_oid empty_world) <> "" /\
  String.length (str_ObjectId (next_oid empty_world)) = 24%nat /\
  (Order.status (CreateOrderPayload.order scenario_payload) = "pending" ->
   forall d,
     In d [mkDocument (next_oid empty_world)
             (CreateOrderPayload.order scenario_payload)] ->
     Order.status (data d) = "pending").
Proof.
  split; [reflexivity|].
  apply (create_order_unconfigured_persists_draft unconfigured
           (gateway_ok "order_ABC123") urandom_sample scenario_payload
           empty_world).
  reflexivity.
Defined.

(** ** The frame of the two status writers *)

Lemma create_order_appends (cfg : Config) (gateway : Gateway)
    (urandom4 : list byte) (payload : CreateOrderPayload.t) (w : World) :
  exists new : list Document,
    db_order (snd (create_order cfg gateway urandom4 payload w))
    = db_order w ++ new /\ (List.length new <= 1)%nat.
Proof.
  rewrite create_order_unfold. cbv zeta.
  destruct (not_ (RAZORPAY_KEY_ID cfg) || not_ (RAZORPAY_KEY_SECRET cfg)).
  { eexists; split; [reflexivity|simpl; lia]. }
  destruct (int _) as [e|a].
  { exists []; split; [simpl; now rewrite app_nil_r|simpl; lia]. }
  destruct (gateway _) as [e|r].
  { exists []; split; [simpl; now rewrite app_nil_r|simpl; lia]. }
  destruct (300 <=? status_code r)%Z.
  { exists []; split; [simpl; now rewrite app_nil_r|simpl; lia]. }
  destruct (json_id r).
  { exists []; split; [simpl; now rewrite app_nil_r|simpl; lia]. }
  eexists; split; [reflexivity|simpl; lia].
Qed.

(** C10. [verify_payment] and [update_order_status] leave every stored
    order as it was but for its [status]: document by document the
    identifier and all other members, [razorpay_order_id] among them, are
    unchanged, and no document is added or removed.  [create_order], the
    only writer of [razorpay_order_id], touches no stored order: it appends
    at most one new document. *)
Theorem status_writers_keep_razorpay_order_id
    (cfg : Config) (vbody : PaymentVerification.t)
    (order_id : string) (ubody : UpdateOrderStatus.t) (w : World) :
  let wv := snd (verify_payment cfg vbody w) in
  let wu := snd (update_order_status order_id ubody w) in
  Forall2 same_but_status (db_order w) (db_order wv) /\
  Forall2 same_but_status (db_order w) (db_order wu) /\
  map (fun d => (_id d, Order.razorpay_order_id (data d))) (db_order wv)
  = map (fun d => (_id d, Order.razorpay_order_id (data d))) (db_order w) /\
  map (fun d => (_id d, Order.razorpay_order_id (data d))) (db_order wu)
  = map (fun d => (_id d, Order.razorpay_order_id (data d))) (db_order w) /\
  (forall gateway urandom4 payload,
     exists new : list Document,
       db_order (snd (create_order cfg gateway urandom4 payload w))
       = db_order w ++ new /\ (List.length new <= 1)%nat).
Proof.
  intros wv wu.
  pose proof (same_but_status_refl (db_order w)) as R.
  assert (Hv : Forall2 same_but_status (db_order w) (db_order wv)).
  { subst wv. rewrite verify_payment_unfold.
    destruct (not_ _); [exact R|].
    destruct (String.eqb _ _); [apply update_one_docs_frame|exact R]. }
  assert (Hu : Forall2 same_but_status (db_order w) (db_order wu)).
  { subst wu. rewrite update_order_status_unfold.
    destruct (ObjectId order_id); [exact R|apply update_one_docs_frame]. }
  split; [exact Hv|]. split; [exact Hu|].
  split; [now apply same_but_status_razorpay_order_id|].
  split; [now apply same_but_status_razorpay_order_id|].
  intros. apply create_order_appends.
Qed.

(** * Further properties of the order lifecycle *)

(** ** What verify_payment writes *)

Lemma update_one_docs_split (f : Filter) (s : string) (docs : list Document) :
  (find_one f docs = None /\ update_one_docs f s docs = docs) \/
  (exists l1 d l2,
     docs = l1 ++ d :: l2 /\
     Forall (fun x => matches f x = false) l1 /\ matches f d = true /\
     update_one_docs f s docs = l1 ++ with_status s d :: l2).
Proof.
  unfold find_one.
  induction docs as [|d docs IH]; simpl; [now left|].
  destruct (matches f d) eqn:E.
  - right. exists [], d, docs. repeat split; auto.
  - destruct IH as [[Hn Hu]|(l1 & d0 & l2 & Hd & Hl & Hm & Hu)].
    + left. now rewrite Hu.
    + right. exists (d :: l1), d0, l2. rewrite Hd at 1. rewrite Hu.
      repeat split; auto.
Qed.

(** X1. [verify_payment] answers success exactly when a secret is
    configured and the supplied signature equals the digest it computes.
    In every other case the answer is not success (it is ["skipped"] or an
    exception) and the world is exactly as it was: no request without the
    right signature changes an order or is told it succeeded. *)
Theorem verify_payment_writes_only_on_valid_signature
    (cfg : Config) (body : PaymentVerification.t) (w : World) :
  (fst (verify_payment cfg body w) = inr success /\
   not_ (RAZORPAY_KEY_SECRET cfg) = false /\
   PaymentVerification.razorpay_signature body
   = generated_signature (RAZORPAY_KEY_SECRET cfg)
       (PaymentVerification.razorpay_order_id body)
       (PaymentVerification.razorpay_payment_id body)) \/
  (fst (verify_payment cfg body w) <> inr success /\
   snd (verify_payment cfg body w) = w /\
   (not_ (RAZORPAY_KEY_SECRET cfg) = true \/
    PaymentVerification.razorpay_signature body
    <> generated_signature (RAZORPAY_KEY_SECRET cfg)
         (PaymentVerification.razorpay_order_id body)
         (PaymentVerification.razorpay_payment_id body))).
Proof.
  rewrite verify_payment_unfold.
  destruct (not_ (RAZORPAY_KEY_SECRET cfg)).
  { right. split; [discriminate|]. split; [reflexivity|now left]. }
  destruct (String.eqb _ _) eqn:E.
  - left. apply String.eqb_eq in E. repeat split. now symmetry.
  - right. apply String.eqb_neq in E.
    split; [discriminate|]. split; [reflexivity|].
    right. intros H. apply E. now symmetry.
Qed.

(** X2. [verify_payment] changes at most one stored order: either the
    collection is as it was, or exactly the first order (in natural order)
    whose [razorpay_order_id] is the body's gets status ["paid"], while the
    orders before and after it, later ones with the same
    [razorpay_order_id] included, are untouched. *)
Theorem verify_payment_changes_at_most_one_order
    (cfg : Config) (body : PaymentVerification.t) (w : World) :
  let oid := PaymentVerification.razorpay_order_id body in
  let docs' := db_order (snd (verify_payment cfg body w)) in
  docs' = db_order w \/
  (exists l1 d l2,
     db_order w = l1 ++ d :: l2 /\
     docs' = l1 ++ with_status "paid" d :: l2 /\
     Order.razorpay_order_id (data d) = Some oid /\
     (forall x, In x l1 -> Order.razorpay_order_id (data x) <> Some oid)).
Proof.
  intros oid docs'. subst docs'. rewrite verify_payment_unfold.
  destruct (not_ _); [now left|].
  destruct (String.eqb _ _); [|now left].
  cbn [snd db_order].
  destruct (update_one_docs_split (by_razorpay_order_id oid) "paid" (db_order w))
    as [[_ Hu]|(l1 & d & l2 & Hd & Hl & Hm & Hu)]; [now left|].
  right. exists l1, d, l2. split; [exact Hd|]. split; [exact Hu|].
  split.
  - simpl in Hm.
    destruct (Order.razorpay_order_id (data d)) as [v|]; [|discriminate].
    simpl in Hm. apply String.eqb_eq in Hm. now subst.
  - intros x Hx Heq. rewrite Forall_forall in Hl.
    specialize (Hl x Hx). simpl in Hl. rewrite Heq in Hl. simpl in Hl.
    now rewrite String.eqb_refl in Hl.
Qed.

(** With two orders carrying the same intent, a valid verification pays the
    first and leaves the second pending. *)
Example verify_payment_duplicate_intent :
  map (fun d => Order.status (data d))
      (db_order
         (snd (verify_payment configured
                 (PaymentVerification.mk "order_ABC123" "pay_XYZ789"
                    (generated_signature "secret" "order_ABC123" "pay_XYZ789"))
                 duplicate_world)))
  = ["paid"; "pending"].
Proof. vm_compute. reflexivity. Qed.

Lemma string_append_assoc (x y z : string) :
  ((x ++ y) ++ z)%string = (x ++ (y ++ z))%string.
Proof. induction x as [|ch x IH]; simpl; [reflexivity|now rewrite IH]. Qed.

(** X3. The signed message is [order_id + "|" + payment_id] with nothing
    that fixes where the first ends: moving a ["|"]-separated part from one
    identifier to the other gives the same signature, so a signature valid
    for [(a, b|c)] is accepted by [verify_payment] for [(a|b, c)] as
    well. *)
Theorem generated_signature_separator_ambiguity
    (cfg : Config) (a b c : string) (w : World) :
  not_ (RAZORPAY_KEY_SECRET cfg) = false ->
  generated_signature (RAZORPAY_KEY_SECRET cfg) (a ++ "|" ++ b) c
  = generated_signature (RAZORPAY_KEY_SECRET cfg) a (b ++ "|" ++ c) /\
  fst (verify_payment cfg
         (PaymentVerification.mk (a ++ "|" ++ b) c
            (generated_signature (RAZORPAY_KEY_SECRET cfg) a (b ++ "|" ++ c)))
         w)
  = inr success.
Proof.
  intros Hs.
  assert (E : generated_signature (RAZORPAY_KEY_SECRET cfg) (a ++ "|" ++ b) c
              = generated_signature (RAZORPAY_KEY_SECRET cfg) a
                  (b ++ "|" ++ c)).
  { unfold generated_signature. do 3 f_equal.
    now rewrite !string_append_assoc. }
  split; [exact E|].
  rewrite verify_payment_unfold.
  cbn [PaymentVerification.razorpay_order_id
       PaymentVerification.razorpay_payment_id
       PaymentVerification.razorpay_signature].
  now rewrite Hs, E, String.eqb_refl.
Qed.

Lemma generated_signature_separator_ambiguity_witness :
  not_ (RAZORPAY_KEY_SECRET configured) = false /\
  generated_signature (RAZORPAY_KEY_SECRET configured)
    ("order_A" ++ "|" ++ "x") "pay_1"
  = generated_signature (RAZORPAY_KEY_SECRET configured)
      "order_A" ("x" ++ "|" ++ "pay_1") /\
  fst (verify_payment configured
         (PaymentVerification.mk ("order_A" ++ "|" ++ "x") "pay_1"
            (generated_signature (RAZORPAY_KEY_SECRET configured)
               "order_A" ("x" ++ "|" ++ "pay_1")))
         scenario_world)
  = inr success.
Proof.
  split; [reflexivity|].
  apply (generated_signature_separator_ambiguity configured
           "order_A" "x" "pay_1" scenario_world).
  reflexivity.
Defined.

(** ** What create_order persists and sends *)

(** X4. With both credentials configured, when the amount converts, the
    gateway answers with a status below 300 and the body is a JSON object,
    [create_order] makes that one call, stores exactly one document, the
    draft with [razorpay_order_id] replaced by the gateway's ["id"]
    (whatever the draft carried there, and [None] when the object has no
    ["id"]) and every other member, status included, as the draft has it,
    and returns the new identifier, the intent identifier and the
    amount. *)
Theorem create_order_configured_success
    (cfg : Config) (gateway : Gateway) (urandom4 : list byte)
    (payload : CreateOrderPayload.t) (w : World)
    (amount_paise : Z) (r : Response) (data_id : option string) :
  not_ (RAZORPAY_KEY_ID cfg) = false ->
  not_ (RAZORPAY_KEY_SECRET cfg) = false ->
  int (fmul (Order.total_amount (CreateOrderPayload.order payload))
            (float_of_Z 100)) = inr amount_paise ->
  gateway (gateway_request cfg urandom4 (CreateOrderPayload.order payload)
             amount_paise) = inr r ->
  (status_code r < 300)%Z ->
  json_id r = inr data_id ->
  create_order cfg gateway urandom4 payload w
  = (inr [("order_id", JStr (str_ObjectId (next_oid w)));
          ("razorpay_order_id", json_of_option data_id);
          ("amount", JInt amount_paise)],
     mkWorld
       (db_order w ++
        [mkDocument (next_oid w)
           (Order.set_razorpay_order_id data_id
              (CreateOrderPayload.order payload))])
       (N.succ (next_oid w))
       (outbound w ++
        [gateway_request cfg urandom4 (CreateOrderPayload.order payload)
           amount_paise])).
Proof.
  intros Hk Hs Hi Hg Hr Hj. rewrite create_order_unfold. cbv zeta.
  rewrite Hk, Hs, Hi, Hg, Hj. cbn [orb].
  apply Z.leb_gt in Hr. now rewrite Hr.
Qed.

Lemma create_order_configured_success_witness :
  let req := gateway_request configured urandom_sample
               (CreateOrderPayload.order scenario_payload) 155000 in
  let r := mkResponse 200 "{}" (inr (Some "order_ABC123")) in
  not_ (RAZORPAY_KEY_ID configured) = false /\
  not_ (RAZORPAY_KEY_SECRET configured) = false /\
  int (fmul (Order.total_amount (CreateOrderPayload.order scenario_payload))
            (float_of_Z 100)) = inr 155000%Z /\
  gateway_ok "order_ABC123" req = inr r /\
  (status_code r < 300)%Z /\
  json_id r = inr (Some "order_ABC123") /\
  create_order configured (gateway_ok "order_ABC123") urandom_sample
    scenario_payload empty_world
  = (inr [("order_id", JStr (str_ObjectId (next_oid empty_world)));
          ("razorpay_order_id", json_of_option (Some "order_ABC123"));
          ("amount", JInt 155000)],
     mkWorld
       (db_order empty_world ++
        [mkDocument (next_oid empty_world)
           (Order.set_razorpay_order_id (Some "order_ABC123")
              (CreateOrderPayload.order scenario_payload))])
       (N.succ (next_oid empty_world))
       (outbound empty_world ++ [req])).
Proof.
  cbv zeta.
  split; [reflexivity|]. split; [reflexivity|].
  split; [vm_compute; reflexivity|]. split; [reflexivity|].
  split; [simpl; lia|]. split; [reflexivity|].
  apply (create_order_configured_success configured
           (gateway_ok "order_ABC123") urandom_sample scenario_payload
           empty_world 155000
           (mkResponse 200 "{}" (inr (Some "order_ABC123")))
           (Some "order_ABC123"));
    [reflexivity | reflexivity | vm_compute; reflexivity | reflexivity
    | simpl; lia | reflexivity].
Defined.

(** X5. [create_order] stores a document exactly when it returns normally.
    Whatever goes wrong (the amount does not convert, [requests.post]
    raises, the gateway refuses, the body is not JSON) leaves as an
    [HTTPException] with status 500 and the collection and the identifier
    counter are as before.  A normal return has appended exactly one
    document, and the ["order_id"] returned is the rendering of that
    document's identifier.  Either way at most one outbound call was
    made. *)
Theorem create_order_persists_iff_returns
    (cfg : Config) (gateway : Gateway) (urandom4 : list byte)
    (payload : CreateOrderPayload.t) (w : World) :
  let run := create_order cfg gateway urandom4 payload w in
  (exists calls, outbound (snd run) = outbound w ++ calls /\
                 (List.length calls <= 1)%nat) /\
  match fst run with
  | inl e =>
      (exists msg : string, e = HTTPException 500 msg) /\
      db_order (snd run) = db_order w /\ next_oid (snd run) = next_oid w
  | inr d =>
      exists doc,
        db_order (snd run) = db_order w ++ [doc] /\
        _id doc = next_oid w /\
        next_oid (snd run) = N.succ (next_oid w) /\
        dict_get "order_id" d = Some (JStr (str_ObjectId (_id doc)))
  end.
Proof.
  cbv zeta. rewrite create_order_unfold. cbv zeta.
  destruct (not_ (RAZORPAY_KEY_ID cfg) || not_ (RAZORPAY_KEY_SECRET cfg)).
  { split; [exists []; split; [now rewrite app_nil_r|simpl; lia]|].
    eexists. repeat split. }
  destruct (int _) as [e|a].
  { split; [exists []; split; [now rewrite app_nil_r|simpl; lia]|].
    repeat split. now eexists. }
  destruct (gateway _) as [e|r].
  { split; [eexists; split; [reflexivity|simpl; lia]|].
    repeat split. now eexists. }
  destruct (300 <=? status_code r)%Z.
  { split; [eexists; split; [reflexivity|simpl; lia]|].
    repeat split. now eexists. }
  destruct (json_id r) as [e|i].
  { split; [eexists; split; [reflexivity|simpl; lia]|].
    repeat split. now eexists. }
  split; [eexists; split; [reflexivity|simpl; lia]|].
  eexists. repeat split.
Qed.

Lemma ge0_cases (x : float) :
  ge0 x = true ->
  (exists s, x = S754_zero s) \/ x = S754_infinity false \/
  (exists m e, x = S754_finite false m e).
Proof.
  destruct x as [s|s| |s m e]; cbn; intros H; try discriminate.
  - left. now exists s.
  - destruct s; [discriminate|]. now right; left.
  - destruct s; [discriminate|]. right; right. now exists m, e.
Qed.

(** For a total that passes [ge=0], the paise amount, when there is one,
    is not negative. *)
Lemma int_times_100_nonneg (x : float) (a : Z) :
  ge0 x = true -> int (fmul x (float_of_Z 100)) = inr a -> (0 <= a)%Z.
Proof.
  intros Hge. rewrite hundred.
  destruct (ge0_cases x Hge) as [[s ->]|[->|(m & e & ->)]].
  - cbn. intros [= <-]. lia.
  - cbn. discriminate.
  - unfold fmul, SFmul, binary_round_aux. cbn [xorb].
    destruct (shr_fexp _ _ _ _ _) as [mrs' e'].
    destruct (shr_fexp _ _ _ _ _) as [mrs'' e''].
    destruct (shr_m mrs'') as [|p|p]; cbn.
    + intros [= <-]. lia.
    + destruct (Z.leb e'' _); cbn; [|discriminate].
      intros [= <-]. apply Z.shiftl_nonneg. lia.
    + discriminate.
Qed.

(** X6. For a payload that passes the schema, every call [create_order]
    adds to the outbound log goes to the Razorpay orders URL with the
    configured credentials, [payment_capture] 1 and [timeout] 15, in
    currency ["INR"], and for an amount that is not negative. *)
Theorem create_order_requests_of_valid_orders
    (cfg : Config) (gateway : Gateway) (urandom4 : list byte)
    (payload : CreateOrderPayload.t) (w : World) :
  CreateOrderPayload.validate payload = true ->
  exists calls,
    outbound (snd (create_order cfg gateway urandom4 payload w))
    = outbound w ++ calls /\
    Forall (fun r => well_formed_request cfg r /\
                     req_currency r = "INR" /\ (0 <= amount r)%Z) calls.
Proof.
  intros V.
  assert (Hge : ge0 (Order.total_amount (CreateOrderPayload.order payload))
                = true /\
                Order.currency (CreateOrderPayload.order payload) = "INR").
  { unfold CreateOrderPayload.validate, Order.validate in V.
    repeat (apply andb_prop in V; destruct V as [V ?]).
    split; [assumption|].
    match goal with
    | H : existsb _ Order.currency_literals = true |- _ =>
        cbn in H; rewrite orb_false_r in H; now apply String.eqb_eq in H
    end. }
  destruct Hge as [Hge Hcur].
  rewrite create_order_unfold. cbv zeta.
  destruct (not_ (RAZORPAY_KEY_ID cfg) || not_ (RAZORPAY_KEY_SECRET cfg)).
  { exists []. split; [now rewrite app_nil_r|constructor]. }
  destruct (int _) as [e|a] eqn:Hi.
  { exists []. split; [now rewrite app_nil_r|constructor]. }
  pose proof (int_times_100_nonneg _ _ Hge Hi) as Ha.
  assert (Hreq : Forall (fun r => well_formed_request cfg r /\
                                  req_currency r = "INR" /\ (0 <= amount r)%Z)
                   [gateway_request cfg urandom4
                      (CreateOrderPayload.order payload) a]).
  { constructor; [|constructor].
    unfold well_formed_request. cbn. repeat split; assumption. }
  destruct (gateway _) as [e|r]; [eexists; split; [reflexivity|exact Hreq]|].
  destruct (300 <=? status_code r)%Z;
    [eexists; split; [reflexivity|exact Hreq]|].
  destruct (json_id r); eexists; (split; [reflexivity|exact Hreq]).
Qed.

Lemma create_order_requests_of_valid_orders_witness :
  CreateOrderPayload.validate scenario_payload = true /\
  exists calls,
    outbound (snd (create_order configured (gateway_fail 503 "down")
                     urandom_sample scenario_payload scenario_world))
    = outbound scenario_world ++ calls /\
    Forall (fun r => well_formed_request configured r /\
                     req_currency r = "INR" /\ (0 <= amount r)%Z) calls.
Proof.
  split; [vm_compute; reflexivity|].
  apply (create_order_requests_of_valid_orders configured
           (gateway_fail 503 "down") urandom_sample scenario_payload
           scenario_world).
  vm_compute; reflexivity.
Defined.

(** X7. The call to the gateway is made from [total_amount] and [currency]
    alone: two payloads that agree on these two members lead to the same
    outbound calls, however their items, subtotal and shipping fee differ;
    the total is never checked against them. *)
Theorem create_order_charges_total_verbatim
    (cfg : Config) (gateway : Gateway) (urandom4 : list byte)
    (p1 p2 : CreateOrderPayload.t) (w : World) :
  Order.total_amount (CreateOrderPayload.order p1)
  = Order.total_amount (CreateOrderPayload.order p2) ->
  Order.currency (CreateOrderPayload.order p1)
  = Order.currency (CreateOrderPayload.order p2) ->
  outbound (snd (create_order cfg gateway urandom4 p1 w))
  = outbound (snd (create_order cfg gateway urandom4 p2 w)) /\
  http_status (fst (create_order cfg gateway urandom4 p1 w))
  = http_status (fst (create_order cfg gateway urandom4 p2 w)).
Proof.
  intros Ht Hc. rewrite !create_order_unfold. cbv zeta.
  destruct (not_ (RAZORPAY_KEY_ID cfg) || not_ (RAZORPAY_KEY_SECRET cfg));
    [split; reflexivity|].
  rewrite Ht. destruct (int _) as [e|a]; [split; reflexivity|].
  unfold gateway_request. rewrite Hc.
  destruct (gateway _) as [e|r]; [split; reflexivity|].
  destruct (300 <=? status_code r)%Z; [split; reflexivity|].
  destruct (json_id r); split; reflexivity.
Qed.

Lemma create_order_charges_total_verbatim_witness :
  let p1 := scenario_payload in
  let p2 := CreateOrderPayload.mk
              (Order.mk "Ravi" "ravi@example.com" "+910000000000" "1 Park St"
                 [] (float_of_decimal 1 1) (float_of_decimal 0 1)
                 (float_of_decimal 1550 1) "INR" "pending"
                 None None None None None) in
  Order.total_amount (CreateOrderPayload.order p1)
  = Order.total_amount (CreateOrderPayload.order p2) /\
  Order.currency (CreateOrderPayload.order p1)
  = Order.currency (CreateOrderPayload.order p2) /\
  CreateOrderPayload.validate p2 = true /\
  outbound (snd (create_order configured (gateway_ok "order_ABC123")
                   urandom_sample p1 empty_world))
  = outbound (snd (create_order configured (gateway_ok "order_ABC123")
                     urandom_sample p2 empty_world)) /\
  http_status (fst (create_order configured (gateway_ok "order_ABC123")
                      urandom_sample p1 empty_world))
  = http_status (fst (create_order configured (gateway_ok "order_ABC123")
                        urandom_sample p2 empty_world)).
Proof.
  cbv zeta.
  split; [reflexivity|]. split; [reflexivity|].
  split; [vm_compute; reflexivity|].
  apply (create_order_charges_total_verbatim configured
           (gateway_ok "order_ABC123") urandom_sample); reflexivity.
Defined.

(** ** Identifiers: rendering and parsing *)

Lemma hex_value_hex_digit (k : N) : hex_value (hex_digit k) = Some (k mod 16)%N.
Proof.
  unfold hex_digit.
  assert (H : (N.to_nat (k mod 16) < 16)%nat).
  { pose proof (N.mod_upper_bound k 16). lia. }
  rewrite <- (N2Nat.id (k mod 16)) at 2.
  revert H. generalize (N.to_nat (k mod 16)) as j. intros j H.
  do 16 (destruct j as [|j]; [reflexivity|]). lia.
Qed.

Lemma byte_digits (n : N) :
  (n <= 255)%N -> (16 * ((n / 16) mod 16) + n mod 16 = n)%N.
Proof.
  intros H.
  assert (Hq : (n / 16 < 16)%N) by (apply N.Div0.div_lt_upper_bound; lia).
  rewrite (N.mod_small _ _ Hq).
  pose proof (N.div_mod n 16). lia.
Qed.

Lemma is_space_hex_digit (k : N) : is_space (hex_digit k) = false.
Proof.
  unfold hex_digit.
  assert (H : (N.to_nat (k mod 16) < 16)%nat).
  { pose proof (N.mod_upper_bound k 16). lia. }
  revert H. generalize (N.to_nat (k mod 16)) as j. intros j H.
  do 16 (destruct j as [|j]; [reflexivity|]). lia.
Qed.

Lemma byte_of_N_to_N (b : byte) : byte_of_N (Byte.to_N b) = b.
Proof.
  unfold byte_of_N.
  pose proof (Byte.to_N_bounded b) as Hb.
  rewrite N.mod_small by lia. now rewrite Byte.of_to_N.
Qed.

(** [bytes.fromhex(bs.hex()) == bs] *)
Lemma fromhex_hex (bs : list byte) : fromhex (hex bs) = Some bs.
Proof.
  induction bs as [|b bs IH]; [reflexivity|].
  cbn [hex hex_of_byte String.append fromhex].
  rewrite is_space_hex_digit, !hex_value_hex_digit, IH.
  cbn [option_map]. do 2 f_equal.
  rewrite (byte_digits _ (Byte.to_N_bounded b)). apply byte_of_N_to_N.
Qed.

Lemma to_N_byte_of_N (k : N) : Byte.to_N (byte_of_N k) = (k mod 256)%N.
Proof.
  unfold byte_of_N.
  destruct (Byte.of_N (k mod 256)) as [b|] eqn:E.
  - now apply Byte.to_of_N.
  - apply Byte.of_N_None_iff in E.
    pose proof (N.mod_upper_bound k 256). lia.
Qed.

Lemma fold_be_bytes (n : nat) (x acc : N) :
  fold_left (fun a b => 256 * a + Byte.to_N b)%N (SHA256.be_bytes n x) acc
  = (acc * 256 ^ N.of_nat n + x mod 256 ^ N.of_nat n)%N.
Proof.
  revert acc. induction n as [|n IH]; intros acc.
  - cbn. rewrite N.mod_1_r. lia.
  - cbn [SHA256.be_bytes fold_left]. rewrite IH, to_N_byte_of_N.
    rewrite Nat2N.inj_succ, N.pow_succ_r'.
    rewrite N.shiftr_div_pow2.
    replace (2 ^ (8 * N.of_nat n))%N with (256 ^ N.of_nat n)%N
      by (change 256%N with (2 ^ 8)%N; now rewrite <- N.pow_mul_r).
    set (P := (256 ^ N.of_nat n)%N).
    assert (HP : P <> 0%N) by (apply N.pow_nonzero; lia).
    rewrite (N.mul_comm 256 P), (N.Div0.mod_mul_r x P 256). lia.
Qed.

Lemma be_bytes_length (n : nat) (x : N) :
  List.length (SHA256.be_bytes n x) = n.
Proof. induction n as [|n IH]; simpl; [reflexivity|now rewrite IH]. Qed.

(** The identifier the store returns parses back to the same [ObjectId]. *)
Lemma ObjectId_str_ObjectId (o : ObjectId_t) :
  (o < 2 ^ 96)%N -> ObjectId (str_ObjectId o) = inr o.
Proof.
  intros H. unfold ObjectId.
  rewrite str_ObjectId_length. cbn [Nat.eqb].
  unfold str_ObjectId. rewrite fromhex_hex. unfold oid_of_bytes.
  rewrite be_bytes_length. cbn [Nat.eqb].
  rewrite fold_be_bytes.
  change (256 ^ N.of_nat 12)%N with (2 ^ 96)%N.
  rewrite (N.mod_small _ _ H). reflexivity.
Qed.

(** ** update_order_status *)

Lemma find_one_by_id_none (oid : ObjectId_t) (docs : list Document) :
  (forall d, In d docs -> _id d <> oid) -> find_one (by_id oid) docs = None.
Proof.
  unfold find_one. induction docs as [|d docs IH]; intros H; [reflexivity|].
  simpl. destruct (N.eqb_spec (_id d) oid) as [E|E].
  - exfalso. apply (H d); [now left|exact E].
  - apply IH. intros d' Hd'. apply H. now right.
Qed.

Lemma update_one_docs_by_id_map (oid : ObjectId_t) (s : string)
    (docs : list Document) :
  NoDup (map _id docs) ->
  update_one_docs (by_id oid) s docs
  = map (fun x => if N.eqb (_id x) oid then with_status s x else x) docs.
Proof.
  induction docs as [|d docs IH]; intros Hnd; [reflexivity|].
  inversion Hnd as [|i l Hni Hnd']; subst.
  cbn [update_one_docs matches map].
  destruct (N.eqb_spec (_id d) oid) as [E|E].
  - unfold with_status at 1. f_equal.
    rewrite <- (map_id docs) at 1. apply map_ext_in.
    intros x Hx. destruct (N.eqb_spec (_id x) oid) as [Ex|_]; [|reflexivity].
    exfalso. apply Hni. rewrite E, <- Ex. now apply in_map.
  - f_equal. now apply IH.
Qed.

Lemma update_one_docs_app_last (f : Filter) (s : string)
    (l : list Document) (d : Document) :
  Forall (fun x => matches f x = false) l -> matches f d = true ->
  update_one_docs f s (l ++ [d]) = l ++ [with_status s d].
Proof.
  intros Hl Hd. induction Hl as [|x l Hx _ IH]; simpl.
  - now rewrite Hd.
  - now rewrite Hx, IH.
Qed.

Lemma update_one_docs_overwrite (f : Filter) (s1 s2 : string)
    (docs : list Document) :
  update_one_docs f s2 (update_one_docs f s1 docs) = update_one_docs f s2 docs.
Proof.
  induction docs as [|d docs IH]; simpl; [reflexivity|].
  destruct (matches f d) eqn:E; simpl.
  - now rewrite matches_set_status, E.
  - now rewrite E, IH.
Qed.

Lemma update_one_docs_ids (f : Filter) (s : string) (docs : list Document) :
  map _id (update_one_docs f s docs) = map _id docs.
Proof.
  induction docs as [|d docs IH]; simpl; [reflexivity|].
  destruct (matches f d); simpl; [reflexivity|now rewrite IH].
Qed.

Lemma fromhex_bad_char (c : ascii) (n : nat) (s : string) :
  (String.length s <= n)%nat ->
  In c (list_ascii_of_string s) ->
  hex_value c = None -> is_space c = false ->
  fromhex s = None.
Proof.
  intros Hn Hin Hc Hsp. revert s Hn Hin.
  induction n as [|n IH]; intros s Hn Hin.
  { destruct s; [destruct Hin|simpl in Hn; lia]. }
  destruct s as [|c0 s']; [destruct Hin|].
  cbn [fromhex]. simpl in Hn.
  destruct (is_space c0) eqn:S0.
  - destruct Hin as [->|Hin]; [congruence|]. apply IH; [lia|exact Hin].
  - destruct (hex_value c0) as [hi|] eqn:H0; [|reflexivity].
    destruct Hin as [->|Hin]; [congruence|].
    destruct s' as [|c2 s'']; [reflexivity|].
    destruct (hex_value c2) as [lo|] eqn:H2; [|reflexivity].
    destruct Hin as [->|Hin]; [congruence|].
    simpl in Hn. rewrite (IH s''); [reflexivity|lia|exact Hin].
Qed.

(** X8. An [order_id] that is not 24 characters long, or holds a character
    that is neither a hexadecimal digit nor ASCII whitespace, is refused:
    [ObjectId(order_id)] raises [InvalidId] inside the [try], the handler
    answers 500 and the world is unchanged.  The detail is the message of
    [InvalidId], which renders the identifier with [repr] (exact for an
    ASCII identifier). *)
Theorem update_order_status_malformed_id
    (order_id : string) (body : UpdateOrderStatus.t) (w : World) :
  String.length order_id <> 24%nat \/
  (exists c, In c (list_ascii_of_string order_id) /\
             hex_value c = None /\ is_space c = false) ->
  exists msg : string,
    update_order_status order_id body w = (inl (HTTPException 500 msg), w) /\
    (is_ascii order_id = true ->
     msg = (repr order_id ++
            " is not a valid ObjectId, it must be a 12-byte input or a 24-character hex string")%string).
Proof.
  intros H. eexists. split; [|intros _; reflexivity].
  rewrite update_order_status_unfold. unfold ObjectId.
  destruct (String.length order_id =? 24)%nat eqn:E; [|reflexivity].
  destruct H as [H|(c & Hin & Hc & Hsp)].
  - apply Nat.eqb_eq in E. contradiction.
  - now rewrite (fromhex_bad_char c _ order_id (le_n _) Hin Hc Hsp).
Qed.

Lemma update_order_status_malformed_id_witness :
  (String.length "65a1b2c3d4e5f6'718293a4g" <> 24%nat \/
   (exists c, In c (list_ascii_of_string "65a1b2c3d4e5f6'718293a4g") /\
              hex_value c = None /\ is_space c = false)) /\
  is_ascii "65a1b2c3d4e5f6'718293a4g" = true /\
  repr "65a1b2c3d4e5f6'718293a4g"
  = String dquote ("65a1b2c3d4e5f6'718293a4g" ++ String dquote "") /\
  exists msg : string,
    update_order_status "65a1b2c3d4e5f6'718293a4g"
      (UpdateOrderStatus.mk "shipped") scenario_world
    = (inl (HTTPException 500 msg), scenario_world) /\
    (is_ascii "65a1b2c3d4e5f6'718293a4g" = true ->
     msg = (repr "65a1b2c3d4e5f6'718293a4g" ++
            " is not a valid ObjectId, it must be a 12-byte input or a 24-character hex string")%string).
Proof.
  assert (H : String.length "65a1b2c3d4e5f6'718293a4g" <> 24%nat \/
              (exists c, In c (list_ascii_of_string "65a1b2c3d4e5f6'718293a4g")
                         /\ hex_value c = None /\ is_space c = false)).
  { right. exists "g"%char. split; [simpl; tauto|split; reflexivity]. }
  split; [exact H|]. split; [reflexivity|]. split; [reflexivity|].
  apply (update_order_status_malformed_id "65a1b2c3d4e5f6'718293a4g"
           (UpdateOrderStatus.mk "shipped") scenario_world H).
Defined.

(** The empty identifier and a short one are refused in the same way, with
    the identifier in single quotes; an identifier of 24 characters that
    ends in two spaces is let through by [bytes.fromhex] as eleven bytes,
    matches no order, and is answered ["updated"]. *)
Example update_order_status_edge_ids :
  update_order_status "" (UpdateOrderStatus.mk "shipped") scenario_world
  = (inl (HTTPException 500
            "'' is not a valid ObjectId, it must be a 12-byte input or a 24-character hex string"),
     scenario_world) /\
  update_order_status "42" (UpdateOrderStatus.mk "shipped") scenario_world
  = (inl (HTTPException 500
            "'42' is not a valid ObjectId, it must be a 12-byte input or a 24-character hex string"),
     scenario_world) /\
  update_order_status "65a1b2c3d4e5f60718293a  "
    (UpdateOrderStatus.mk "shipped") scenario_world
  = (inr [("status", JStr "updated")], scenario_world) /\
  update_order_status "65a1b2c3d4e5f60718293 4b"
    (UpdateOrderStatus.mk "shipped") scenario_world
  = (inl (HTTPException 500
            "'65a1b2c3d4e5f60718293 4b' is not a valid ObjectId, it must be a 12-byte input or a 24-character hex string"),
     scenario_world).
Proof. vm_compute. repeat split. Qed.

(** X9. A well-formed [order_id] that is the identifier of no stored order
    is not reported: the handler answers ["updated"] and the world is
    unchanged. *)
Theorem update_order_status_unknown_id_noop
    (order_id : string) (oid : ObjectId_t) (body : UpdateOrderStatus.t)
    (w : World) :
  ObjectId order_id = inr oid ->
  (forall d, In d (db_order w) -> _id d <> oid) ->
  update_order_status order_id body w = (inr [("status", JStr "updated")], w).
Proof.
  intros Ho Hn. rewrite update_order_status_unfold, Ho.
  rewrite update_one_docs_no_match by now apply find_one_by_id_none.
  destruct w; reflexivity.
Qed.

Lemma update_order_status_unknown_id_noop_witness :
  ObjectId "0123456789abcdef01234567" = inr 0x0123456789abcdef01234567%N /\
  (forall d, In d (db_order scenario_world) ->
     _id d <> 0x0123456789abcdef01234567%N) /\
  update_order_status "0123456789abcdef01234567"
    (UpdateOrderStatus.mk "shipped") scenario_world
  = (inr [("status", JStr "updated")], scenario_world).
Proof.
  assert (H : forall d, In d (db_order scenario_world) ->
                _id d <> 0x0123456789abcdef01234567%N).
  { intros d [<-|[]]. vm_compute. discriminate. }
  split; [vm_compute; reflexivity|]. split; [exact H|].
  apply (update_order_status_unknown_id_noop "0123456789abcdef01234567"
           0x0123456789abcdef01234567%N (UpdateOrderStatus.mk "shipped")
           scenario_world); [vm_compute; reflexivity|exact H].
Defined.

(** X10. With distinct identifiers in the collection, a well-formed
    [order_id] makes [update_order_status] write the body's status, any
    string at all and whatever the order's status was, into the order with
    that identifier and into no other; nothing checks the string against
    the statuses of the schema or the order's current status. *)
Theorem update_order_status_sets_any_status
    (order_id : string) (oid : ObjectId_t) (body : UpdateOrderStatus.t)
    (w : World) :
  ObjectId order_id = inr oid ->
  NoDup (map _id (db_order w)) ->
  update_order_status order_id body w
  = (inr [("status", JStr "updated")],
     mkWorld
       (map (fun x => if N.eqb (_id x) oid
                      then with_status (UpdateOrderStatus.status body) x
                      else x) (db_order w))
       (next_oid w) (outbound w)).
Proof.
  intros Ho Hnd. rewrite update_order_status_unfold, Ho.
  now rewrite update_one_docs_by_id_map.
Qed.

Lemma update_order_status_sets_any_status_witness :
  let w := snd (verify_payment configured
                  (PaymentVerification.mk "order_ABC123" "pay_XYZ789"
                     (generated_signature "secret" "order_ABC123" "pay_XYZ789"))
                  scenario_world) in
  ObjectId "65A1B2C3D4E5F60718293A4B" = inr (next_oid empty_world) /\
  NoDup (map _id (db_order w)) /\
  map (fun d => Order.status (data d)) (db_order w) = ["paid"] /\
  existsb (String.eqb "not a status") Order.status_literals = false /\
  update_order_status "65A1B2C3D4E5F60718293A4B"
    (UpdateOrderStatus.mk "not a status") w
  = (inr [("status", JStr "updated")],
     mkWorld
       (map (fun x => if N.eqb (_id x) (next_oid empty_world)
                      then with_status "not a status" x else x) (db_order w))
       (next_oid w) (outbound w)) /\
  map (fun d => Order.status (data d))
      (db_order (snd (update_order_status "65A1B2C3D4E5F60718293A4B"
                        (UpdateOrderStatus.mk "not a status") w)))
  = ["not a status"].
Proof.
  cbv zeta.
  assert (Hnd : NoDup (map _id (db_order
            (snd (verify_payment configured
                    (PaymentVerification.mk "order_ABC123" "pay_XYZ789"
                       (generated_signature "secret" "order_ABC123"
                          "pay_XYZ789")) scenario_world))))).
  { vm_compute. constructor; [intros []|constructor]. }
  split; [vm_compute; reflexivity|]. split; [exact Hnd|].
  split; [vm_compute; reflexivity|]. split; [vm_compute; reflexivity|].
  split; [|vm_compute; reflexivity].
  apply (update_order_status_sets_any_status "65A1B2C3D4E5F60718293A4B"
           (next_oid empty_world) (UpdateOrderStatus.mk "not a status"));
    [vm_compute; reflexivity|exact Hnd].
Defined.

(** X11. Two status updates of the same [order_id] in a row leave the
    world as the second alone would: the last write wins, and the first
    leaves no trace. *)
Theorem update_order_status_last_write_wins
    (order_id : string) (b1 b2 : UpdateOrderStatus.t) (w : World) :
  snd (update_order_status order_id b2
         (snd (update_order_status order_id b1 w)))
  = snd (update_order_status order_id b2 w).
Proof.
  rewrite !update_order_status_unfold.
  destruct (ObjectId order_id) as [e|oid]; [reflexivity|].
  cbn [snd db_order next_oid outbound].
  now rewrite update_one_docs_overwrite.
Qed.

(** ** The handlers together *)

Lemma create_order_store (cfg : Config) (gateway : Gateway)
    (urandom4 : list byte) (payload : CreateOrderPayload.t) (w : World) :
  let run := create_order cfg gateway urandom4 payload w in
  ((exists msg, fst run = inl (HTTPException 500 msg)) /\
   db_order (snd run) = db_order w /\ next_oid (snd run) = next_oid w) \/
  (exists d o,
     fst run = inr d /\
     dict_get "order_id" d = Some (JStr (str_ObjectId (next_oid w))) /\
     db_order (snd run) = db_order w ++ [mkDocument (next_oid w) o] /\
     next_oid (snd run) = N.succ (next_oid w)).
Proof.
  cbv zeta. rewrite create_order_unfold. cbv zeta.
  destruct (not_ (RAZORPAY_KEY_ID cfg) || not_ (RAZORPAY_KEY_SECRET cfg)).
  { right. do 2 eexists. repeat split. }
  destruct (int _) as [e|a]; [left; repeat split; now eexists|].
  destruct (gateway _) as [e|r]; [left; repeat split; now eexists|].
  destruct (300 <=? status_code r)%Z; [left; repeat split; now eexists|].
  destruct (json_id r) as [e|i]; [left; repeat split; now eexists|].
  right. do 2 eexists. repeat split.
Qed.

(** X12. No handler answers with a client error of its own: the HTTP
    status of what [create_order], [verify_payment] and
    [update_order_status] return or raise is 200 or 500, and when
    [verify_payment] or [update_order_status] answers 500 the world is
    unchanged.  (A 4xx can only come from the framework's validation of the
    request body, before the handler runs.) *)
Theorem handlers_answer_200_or_500
    (cfg : Config) (gateway : Gateway) (urandom4 : list byte)
    (payload : CreateOrderPayload.t) (vbody : PaymentVerification.t)
    (order_id : string) (ubody : UpdateOrderStatus.t) (w : World) :
  let rc := create_order cfg gateway urandom4 payload w in
  let rv := verify_payment cfg vbody w in
  let ru := update_order_status order_id ubody w in
  (http_status (fst rc) = 200%Z \/ http_status (fst rc) = 500%Z) /\
  (http_status (fst rv) = 200%Z \/
   http_status (fst rv) = 500%Z /\ snd rv = w) /\
  (http_status (fst ru) = 200%Z \/
   http_status (fst ru) = 500%Z /\ snd ru = w) /\
  raises_only_500 (fst rc) /\ raises_only_500 (fst rv) /\
  raises_only_500 (fst ru).
Proof.
  cbv zeta.
  assert (Hc : raises_only_500 (fst (create_order cfg gateway urandom4 payload w))).
  { destruct (create_order_store cfg gateway urandom4 payload w)
      as [[[msg ->] _]|(d & o & -> & _)]; simpl; [now exists msg|exact I]. }
  assert (Hv : (http_status (fst (verify_payment cfg vbody w)) = 200%Z \/
                http_status (fst (verify_payment cfg vbody w)) = 500%Z /\
                snd (verify_payment cfg vbody w) = w) /\
               raises_only_500 (fst (verify_payment cfg vbody w))).
  { rewrite verify_payment_unfold.
    destruct (not_ _); [split; [now left|exact I]|].
    destruct (String.eqb _ _); [split; [now left|exact I]|].
    split; [right; split; reflexivity|]. simpl. now eexists. }
  assert (Hu : (http_status (fst (update_order_status order_id ubody w)) = 200%Z \/
                http_status (fst (update_order_status order_id ubody w)) = 500%Z /\
                snd (update_order_status order_id ubody w) = w) /\
               raises_only_500 (fst (update_order_status order_id ubody w))).
  { rewrite update_order_status_unfold.
    destruct (ObjectId order_id); [|split; [now left|exact I]].
    split; [right; split; reflexivity|]. simpl. now eexists. }
  split; [|tauto].
  destruct (fst (create_order cfg gateway urandom4 payload w)) as [e|d];
    [|now left].
  destruct Hc as [msg ->]. now right.
Qed.

(** X13. The three handlers keep the store well formed: if the identifiers
    in the collection are distinct and below the next identifier before a
    handler runs, they are so afterwards. *)
Theorem handlers_preserve_store_wf
    (cfg : Config) (gateway : Gateway) (urandom4 : list byte)
    (payload : CreateOrderPayload.t) (vbody : PaymentVerification.t)
    (order_id : string) (ubody : UpdateOrderStatus.t) (w : World) :
  store_wf w ->
  store_wf (snd (create_order cfg gateway urandom4 payload w)) /\
  store_wf (snd (verify_payment cfg vbody w)) /\
  store_wf (snd (update_order_status order_id ubody w)).
Proof.
  intros [Hlt Hnd].
  assert (Hupd : forall f s,
            store_wf (mkWorld (update_one_docs f s (db_order w))
                              (next_oid w) (outbound w))).
  { intros f s. split; cbn [db_order next_oid].
    - rewrite Forall_forall in *. intros d Hd.
      apply (in_map _id) in Hd. rewrite update_one_docs_ids in Hd.
      apply in_map_iff in Hd. destruct Hd as (d0 & <- & Hd0). now apply Hlt.
    - now rewrite update_one_docs_ids. }
  assert (Hsame : forall out, store_wf (mkWorld (db_order w) (next_oid w) out)).
  { intros out. split; assumption. }
  split; [|split].
  - destruct (create_order_store cfg gateway urandom4 payload w)
      as [(_ & Hd & Hn)|(d & o & _ & _ & Hd & Hn)]; cbv zeta in *.
    + split; rewrite Hd; [rewrite Hn|]; assumption.
    + split; rewrite Hd.
      * rewrite Hn. apply Forall_app. split.
        -- eapply Forall_impl; [|exact Hlt]. simpl. intros; lia.
        -- constructor; [simpl; lia|constructor].
      * rewrite map_app. cbn [map _id].
        apply NoDup_app; [exact Hnd|constructor; [intros []|constructor]|].
        intros i Hi [<-|[]].
        apply in_map_iff in Hi. destruct Hi as (d0 & E & Hd0).
        rewrite Forall_forall in Hlt. specialize (Hlt d0 Hd0). lia.
  - rewrite verify_payment_unfold.
    destruct (not_ _); [destruct w; exact (conj Hlt Hnd)|].
    destruct (String.eqb _ _); [apply Hupd|destruct w; exact (conj Hlt Hnd)].
  - rewrite update_order_status_unfold.
    destruct (ObjectId order_id);
      [destruct w; exact (conj Hlt Hnd)|apply Hupd].
Qed.

Lemma scenario_world_wf : store_wf scenario_world.
Proof.
  split.
  - apply Forall_forall. intros d Hd. vm_compute in Hd.
    destruct Hd as [<-|[]]. vm_compute. reflexivity.
  - assert (E : map _id (db_order scenario_world) = [next_oid empty_world])
      by (vm_compute; reflexivity).
    rewrite E. constructor; [intros []|constructor].
Qed.

Lemma handlers_preserve_store_wf_witness :
  store_wf scenario_world /\
  store_wf (snd (create_order unconfigured (gateway_ok "order_ABC123")
                   urandom_sample scenario_payload scenario_world)) /\
  store_wf (snd (verify_payment configured
                   (PaymentVerification.mk "order_ABC123" "pay_XYZ789"
                      "forged") scenario_world)) /\
  store_wf (snd (update_order_status "65a1b2c3d4e5f60718293a4b"
                   (UpdateOrderStatus.mk "shipped") scenario_world)).
Proof.
  pose proof scenario_world_wf as H.
  split; [exact H|].
  apply (handlers_preserve_store_wf unconfigured (gateway_ok "order_ABC123")
           urandom_sample scenario_payload
           (PaymentVerification.mk "order_ABC123" "pay_XYZ789" "forged")
           "65a1b2c3d4e5f60718293a4b" (UpdateOrderStatus.mk "shipped")
           scenario_world H).
Defined.

(** X14. The ["order_id"] a successful [create_order] returns is accepted
    by [update_order_status] and addresses the order just created: in a
    well-formed store whose next identifier fits twelve bytes, the update
    writes the given status into the new document and leaves every older
    document as it was. *)
Theorem create_then_update_order_status
    (cfg : Config) (gateway : Gateway) (urandom4 : list byte)
    (payload : CreateOrderPayload.t) (w : World) (d : dict) :
  store_wf w -> (next_oid w < 2 ^ 96)%N ->
  fst (create_order cfg gateway urandom4 payload w) = inr d ->
  let w1 := snd (create_order cfg gateway urandom4 payload w) in
  exists order_id doc,
    dict_get "order_id" d = Some (JStr order_id) /\
    db_order w1 = db_order w ++ [doc] /\
    forall body,
      update_order_status order_id body w1
      = (inr [("status", JStr "updated")],
         mkWorld
           (db_order w ++ [with_status (UpdateOrderStatus.status body) doc])
           (next_oid w1) (outbound w1)).
Proof.
  intros [Hlt _] Hb Hr w1. subst w1.
  destruct (create_order_store cfg gateway urandom4 payload w)
    as [([msg Hm] & _)|(d0 & o & Hd0 & Hg & Hd & Hn)]; cbv zeta in *.
  { rewrite Hm in Hr. discriminate. }
  rewrite Hd0 in Hr. injection Hr as <-.
  exists (str_ObjectId (next_oid w)), (mkDocument (next_oid w) o).
  split; [exact Hg|]. split; [exact Hd|].
  intros body. rewrite update_order_status_unfold.
  rewrite (ObjectId_str_ObjectId _ Hb), Hd.
  rewrite update_one_docs_app_last; [reflexivity| |].
  - eapply Forall_impl; [|exact Hlt]. simpl. intros x Hx.
    apply N.eqb_neq. lia.
  - simpl. apply N.eqb_refl.
Qed.

Lemma create_then_update_order_status_witness :
  let run := create_order unconfigured (gateway_ok "order_ABC123")
               urandom_sample scenario_payload scenario_world in
  let d := [("order_id", JStr "65a1b2c3d4e5f60718293a4c");
            ("razorpay", JStr "not_configured")] in
  store_wf scenario_world /\ (next_oid scenario_world < 2 ^ 96)%N /\
  fst run = inr d /\
  exists order_id doc,
    dict_get "order_id" d = Some (JStr order_id) /\
    db_order (snd run) = db_order scenario_world ++ [doc] /\
    forall body,
      update_order_status order_id body (snd run)
      = (inr [("status", JStr "updated")],
         mkWorld
           (db_order scenario_world ++
            [with_status (UpdateOrderStatus.status body) doc])
           (next_oid (snd run)) (outbound (snd run))).
Proof.
  cbv zeta.
  pose proof scenario_world_wf as H.
  split; [exact H|]. split; [vm_compute; reflexivity|].
  split; [vm_compute; reflexivity|].
  apply (create_then_update_order_status unconfigured
           (gateway_ok "order_ABC123") urandom_sample scenario_payload
           scenario_world
           [("order_id", JStr "65a1b2c3d4e5f60718293a4c");
            ("razorpay", JStr "not_configured")] H);
    vm_compute; reflexivity.
Defined.

(** X15. Creation and verification compose: when [create_order] succeeds
    through the gateway with the intent identifier [rid], and no older
    order carries [rid], a [verify_payment] with the valid signature for
    [rid] marks exactly the order just created as paid and leaves the older
    orders as they were. *)
Theorem create_then_verify_payment
    (cfg : Config) (gateway : Gateway) (urandom4 : list byte)
    (payload : CreateOrderPayload.t) (w : World)
    (amount_paise : Z) (r : Response) (rid pid : string) :
  not_ (RAZORPAY_KEY_ID cfg) = false ->
  not_ (RAZORPAY_KEY_SECRET cfg) = false ->
  int (fmul (Order.total_amount (CreateOrderPayload.order payload))
            (float_of_Z 100)) = inr amount_paise ->
  gateway (gateway_request cfg urandom4 (CreateOrderPayload.order payload)
             amount_paise) = inr r ->
  (status_code r < 300)%Z ->
  json_id r = inr (Some rid) ->
  (forall d, In d (db_order w) ->
     Order.razorpay_order_id (data d) <> Some rid) ->
  let w1 := snd (create_order cfg gateway urandom4 payload w) in
  verify_payment cfg
    (PaymentVerification.mk rid pid
       (generated_signature (RAZORPAY_KEY_SECRET cfg) rid pid)) w1
  = (inr success,
     mkWorld
       (db_order w ++
        [mkDocument (next_oid w)
           (Order.set_status "paid"
              (Order.set_razorpay_order_id (Some rid)
                 (CreateOrderPayload.order payload)))])
       (next_oid w1) (outbound w1)).
Proof.
  intros Hk Hs Hi Hg Hr Hj Hn w1. subst w1.
  rewrite create_order_unfold. cbv zeta.
  rewrite Hk, Hs, Hi, Hg, Hj. cbn [orb].
  apply Z.leb_gt in Hr. rewrite Hr.
  rewrite verify_payment_unfold, Hs.
  cbn [PaymentVerification.razorpay_order_id
       PaymentVerification.razorpay_payment_id
       PaymentVerification.razorpay_signature snd db_order next_oid outbound].
  rewrite String.eqb_refl.
  rewrite update_one_docs_app_last; [reflexivity| |].
  - rewrite Forall_forall. intros x Hx. simpl.
    specialize (Hn x Hx).
    destruct (Order.razorpay_order_id (data x)) as [v|]; [|reflexivity].
    simpl. apply String.eqb_neq. congruence.
  - simpl. apply String.eqb_refl.
Qed.

Lemma create_then_verify_payment_witness :
  let req := gateway_request configured urandom_sample
               (CreateOrderPayload.order scenario_payload) 155000 in
  let r := mkResponse 200 "{}" (inr (Some "order_ABC123")) in
  let w1 := snd (create_order configured (gateway_ok "order_ABC123")
                   urandom_sample scenario_payload empty_world) in
  not_ (RAZORPAY_KEY_ID configured) = false /\
  not_ (RAZORPAY_KEY_SECRET configured) = false /\
  int (fmul (Order.total_amount (CreateOrderPayload.order scenario_payload))
            (float_of_Z 100)) = inr 155000%Z /\
  gateway_ok "order_ABC123" req = inr r /\
  (status_code r < 300)%Z /\
  json_id r = inr (Some "order_ABC123") /\
  (forall d, In d (db_order empty_world) ->
     Order.razorpay_order_id (data d) <> Some "order_ABC123") /\
  verify_payment configured
    (PaymentVerification.mk "order_ABC123" "pay_XYZ789"
       (generated_signature (RAZORPAY_KEY_SECRET configured)
          "order_ABC123" "pay_XYZ789")) w1
  = (inr success,
     mkWorld
       (db_order empty_world ++
        [mkDocument (next_oid empty_world)
           (Order.set_status "paid"
              (Order.set_razorpay_order_id (Some "order_ABC123")
                 (CreateOrderPayload.order scenario_payload)))])
       (next_oid w1) (outbound w1)).
Proof.
  cbv zeta.
  split; [reflexivity|]. split; [reflexivity|].
  split; [vm_compute; reflexivity|]. split; [reflexivity|].
  split; [simpl; lia|]. split; [reflexivity|].
  split; [intros d []|].
  apply (create_then_verify_payment configured (gateway_ok "order_ABC123")
           urandom_sample scenario_payload empty_world 155000
           (mkResponse 200 "{}" (inr (Some "order_ABC123")))
           "order_ABC123" "pay_XYZ789");
    [reflexivity | reflexivity | vm_compute; reflexivity | reflexivity
    | simpl; lia | reflexivity | intros d []].
Defined.

(** ** Configuration and amounts *)

(** X16. The two handlers read the configuration differently:
    [create_order] needs both credentials, [verify_payment] only the
    secret.  With the secret set and the key identifier missing,
    [create_order] stores the order (one document, the draft as it is)
    without calling the gateway and answers ["not_configured"], while
    [verify_payment] is not skipped: it checks the signature and answers 500
    when it does not match. *)
Theorem secret_without_key_id
    (secret : string) (gateway : Gateway) (urandom4 : list byte)
    (payload : CreateOrderPayload.t) (vbody : PaymentVerification.t)
    (w : World) :
  not_ secret = false ->
  let cfg := mkConfig "" secret in
  db_order (snd (create_order cfg gateway urandom4 payload w))
  = db_order w ++ [mkDocument (next_oid w) (CreateOrderPayload.order payload)] /\
  outbound (snd (create_order cfg gateway urandom4 payload w)) = outbound w /\
  (exists d, fst (create_order cfg gateway urandom4 payload w) = inr d /\
             dict_get "razorpay" d = Some (JStr "not_configured")) /\
  fst (verify_payment cfg vbody w) <> inr skipped /\
  (PaymentVerification.razorpay_signature vbody
   <> generated_signature secret
        (PaymentVerification.razorpay_order_id vbody)
        (PaymentVerification.razorpay_payment_id vbody) ->
   http_status (fst (verify_payment cfg vbody w)) = 500%Z).
Proof.
  intros Hs cfg. subst cfg.
  rewrite create_order_unfold, verify_payment_unfold. cbv zeta.
  cbn [RAZORPAY_KEY_ID RAZORPAY_KEY_SECRET not_ orb]. rewrite Hs.
  split; [reflexivity|].
  split; [reflexivity|]. split; [eexists; split; reflexivity|].
  destruct (String.eqb _ _) eqn:E; (split; [discriminate|]).
  - intros Hneq. apply String.eqb_eq in E. congruence.
  - reflexivity.
Qed.

Lemma secret_without_key_id_witness :
  let cfg := mkConfig "" "secret" in
  let vbody := PaymentVerification.mk "order_ABC123" "pay_XYZ789" "forged" in
  not_ "secret" = false /\
  db_order (snd (create_order cfg (gateway_ok "order_ABC123") urandom_sample
                   scenario_payload scenario_world))
  = db_order scenario_world ++
    [mkDocument (next_oid scenario_world)
       (CreateOrderPayload.order scenario_payload)] /\
  outbound (snd (create_order cfg (gateway_ok "order_ABC123") urandom_sample
                   scenario_payload scenario_world))
  = outbound scenario_world /\
  (exists d,
     fst (create_order cfg (gateway_ok "order_ABC123") urandom_sample
            scenario_payload scenario_world) = inr d /\
     dict_get "razorpay" d = Some (JStr "not_configured")) /\
  fst (verify_payment cfg vbody scenario_world) <> inr skipped /\
  (PaymentVerification.razorpay_signature vbody
   <> generated_signature "secret"
        (PaymentVerification.razorpay_order_id vbody)
        (PaymentVerification.razorpay_payment_id vbody) ->
   http_status (fst (verify_payment cfg vbody scenario_world)) = 500%Z).
Proof.
  cbv zeta. split; [reflexivity|].
  apply (secret_without_key_id "secret" (gateway_ok "order_ABC123")
           urandom_sample scenario_payload
           (PaymentVerification.mk "order_ABC123" "pay_XYZ789" "forged")
           scenario_world).
  reflexivity.
Defined.

(** The product of a total that passes [ge=0] with 100 is a zero, NaN, the
    positive infinity or a positive finite float. *)
Lemma fmul_100_shape (x : float) :
  ge0 x = true ->
  (exists s, fmul x (float_of_Z 100) = S754_zero s) \/
  fmul x (float_of_Z 100) = S754_nan \/
  fmul x (float_of_Z 100) = S754_infinity false \/
  (exists p e, fmul x (float_of_Z 100) = S754_finite false p e).
Proof.
  intros Hge. rewrite hundred.
  destruct (ge0_cases x Hge) as [[s ->]|[->|(m & e & ->)]].
  - left. eexists. reflexivity.
  - right; right; left. reflexivity.
  - unfold fmul, SFmul, binary_round_aux. cbn [xorb].
    destruct (shr_fexp _ _ _ _ _) as [mrs' e'].
    destruct (shr_fexp _ _ _ _ _) as [mrs'' e''].
    destruct (shr_m mrs'') as [|p|p].
    + left. eexists. reflexivity.
    + destruct (Z.leb e'' _).
      * right; right; right. do 2 eexists. reflexivity.
      * right; right; left. reflexivity.
    + right; left. reflexivity.
Qed.

(** X17. How far the truncation of [int(total_amount * 100)] is from the
    nearest integer: for a total that passes the schema's [ge=0], whenever
    [create_order] obtains an amount it is the product rounded to the
    nearest integer or exactly one less, never more and never further
    off. *)
Theorem amount_paise_at_most_one_below_nearest (x : float) (a : Z) :
  ge0 x = true ->
  int (fmul x (float_of_Z 100)) = inr a ->
  exists b : Z,
    round_nearest (fmul x (float_of_Z 100)) = inr b /\ (b = a \/ b = a + 1)%Z.
Proof.
  intros Hge.
  destruct (fmul_100_shape x Hge) as [[s ->]|[->|[->|(p & e & ->)]]];
    cbn [int round_nearest]; try discriminate.
  - intros [= <-]. exists 0%Z. split; [reflexivity|now left].
  - intros [= <-]. cbn [cond_Zopp].
    destruct (0 <=? e)%Z; [eexists; split; [reflexivity|now left]|].
    destruct (2 * (Z.pos p - Z.shiftl (Z.pos p) e * Z.shiftl 1 (- e))
              ?= Z.shiftl 1 (- e))%Z;
      [destruct (Z.odd _)| |];
      eexists; (split; [reflexivity|]); auto.
Qed.

Lemma amount_paise_at_most_one_below_nearest_witness :
  ge0 (float_of_decimal 1999 100) = true /\
  int (fmul (float_of_decimal 1999 100) (float_of_Z 100)) = inr 1998%Z /\
  exists b : Z,
    round_nearest (fmul (float_of_decimal 1999 100) (float_of_Z 100)) = inr b /\
    (b = 1998 \/ b = 1998 + 1)%Z.
Proof.
  split; [vm_compute; reflexivity|]. split; [vm_compute; reflexivity|].
  apply (amount_paise_at_most_one_below_nearest
           (float_of_decimal 1999 100) 1998); vm_compute; reflexivity.
Defined.
